(** * StartStopTimer: a start/stop window timer on FreeRTOS tasks

    A shallow embedding of [lib/StartStopTimer/StartStopTimer.{hpp,cpp}] and of
    the parts of [src/freeRTOStasks.cpp] that configure it, followed by the
    properties of the schedule translator ([setCycleStartStop]) and of the
    task body ([_taskFunction]).

    Conventions.
    - [time_t] values are integers of [Z].  [time_t] is a signed type whose
      overflow is undefined in C++; the model covers the executions in which
      no [time_t] operation overflows.
    - [int] values are integers of [Z] in [-2^31, 2^31).  What [%d] stores
      and every [int] operation is written out with [to_int].  C++ leaves
      the overflow of [int] undefined; the model takes what the compiled
      code does: a result that does not fit keeps its low 32 bits, in
      two's complement.
    - [uint32_t] values are integers of [Z] in [0, 2^32); every conversion
      to [uint32_t] is written out with [to_uint32].
    - C++ [/] on signed operands truncates toward zero: [Z.quot].
    - Logging ([log_i], [strftime] into the local buffer) has no effect on
      the timer and is left out. *)

From Stdlib Require Import ZArith List Ascii String Bool Lia.
Import ListNotations.
Open Scope Z_scope.

(** ** Machine integers *)

Definition to_uint32 (z : Z) : Z := z mod 2 ^ 32.

(** The [int] with the low 32 bits of [z]. *)
Definition to_int (z : Z) : Z := (z + 2 ^ 31) mod 2 ^ 32 - 2 ^ 31.

(** [a + b], [a - b] and [a * b] on [int]. *)
Definition int_add (a b : Z) : Z := to_int (a + b).
Definition int_sub (a b : Z) : Z := to_int (a - b).
Definition int_mul (a b : Z) : Z := to_int (a * b).

(** Ceiling of [a / b] for [0 < b]. *)
Definition cdiv (a b : Z) : Z := (a + b - 1) / b.

(** ** The C library functions the translator calls *)

Module Libc.

(** *** [sscanf] restricted to the conversions used by the timer *)

Definition isspace (c : ascii) : bool :=
  let n := Z.of_nat (nat_of_ascii c) in
  (n =? 32) || ((9 <=? n) && (n <=? 13)).

Definition isdigit (c : ascii) : bool :=
  let n := Z.of_nat (nat_of_ascii c) in
  (48 <=? n) && (n <=? 57).

Definition digit_value (c : ascii) : Z := Z.of_nat (nat_of_ascii c) - 48.

Fixpoint skip_space (s : list ascii) : list ascii :=
  match s with
  | c :: r => if isspace c then skip_space r else s
  | [] => []
  end.

(** The number written by the longest run of decimal digits at the head of
    [s], accumulated from [acc], and the rest of the input.  This is the
    number as it is written; [scan_int] makes the [int] of it. *)
Fixpoint scan_digits (acc : Z) (s : list ascii) : Z * list ascii :=
  match s with
  | c :: r => if isdigit c then scan_digits (10 * acc + digit_value c) r
              else (acc, s)
  | [] => (acc, [])
  end.

Definition starts_with_digit (s : list ascii) : bool :=
  match s with
  | c :: _ => isdigit c
  | [] => false
  end.

(** [%d]: leading white space is skipped, then an optional sign and at least
    one digit are read, and the number is stored in an [int].  [None] is a
    matching failure.  C does not say what is stored when the number does
    not fit an [int]; the model stores its low 32 bits, as a conversion
    through a wider integer does. *)
Definition scan_int (s : list ascii) : option (Z * list ascii) :=
  match skip_space s with
  | c :: r =>
      if (c =? "-")%char then
        if starts_with_digit r
        then let '(v, r') := scan_digits 0 r in Some (to_int (- v), r')
        else None
      else if (c =? "+")%char then
        if starts_with_digit r
        then let '(v, r') := scan_digits 0 r in Some (to_int v, r')
        else None
      else if isdigit c
      then let '(v, r') := scan_digits 0 (c :: r) in Some (to_int v, r')
      else None
  | [] => None
  end.

Inductive directive : Type :=
  | Dint                 (* %d *)
  | Dspace               (* white space in the format *)
  | Dlit (c : ascii).    (* any other character *)

(** The directives of a format string.  ["%d"] is the only conversion the
    timer uses. *)
Fixpoint parse_format (f : list ascii) : list directive :=
  match f with
  | [] => []
  | c :: r =>
      if isspace c then Dspace :: parse_format r
      else if (c =? "%")%char then
        match r with
        | d :: r' => if (d =? "d")%char then Dint :: parse_format r'
                     else Dlit c :: parse_format r
        | [] => [Dlit c]
        end
      else Dlit c :: parse_format r
  end.

(** The values converted by the directives [ds] on the input [s], in order.
    Scanning stops at the first directive that does not match; the values
    converted so far are kept. *)
Fixpoint scan (ds : list directive) (s : list ascii) : list Z :=
  match ds with
  | [] => []
  | Dspace :: ds' => scan ds' (skip_space s)
  | Dlit c :: ds' =>
      match s with
      | c' :: s' => if (c =? c')%char then scan ds' s' else []
      | [] => []
      end
  | Dint :: ds' =>
      match scan_int s with
      | Some (v, s') => v :: scan ds' s'
      | None => []
      end
  end.

(** [sscanf str fmt]: the list of the values assigned, first argument first.
    Its length is the value [sscanf] returns (which the timer never reads). *)
Definition sscanf (str fmt : string) : list Z :=
  scan (parse_format (list_ascii_of_string fmt)) (list_ascii_of_string str).

(** *** Calendar time *)

(** The fields of [struct tm] that [mktime] reads, each an [int].
    [tm_wday] and [tm_yday] are outputs only and are not kept. *)
Record tm : Type := mk_tm {
  tm_sec : Z; tm_min : Z; tm_hour : Z;
  tm_mday : Z; tm_mon : Z; tm_year : Z;
  tm_isdst : Z
}.

(** [tm td = {0}] *)
Definition tm_zero : tm := mk_tm 0 0 0 0 0 0 0.

(** Days from 1970-01-01 to the proleptic Gregorian date [y]-[m]-[d],
    [1 <= m <= 12]; [d] may lie outside the month. *)
Definition days_from_civil (y m d : Z) : Z :=
  let y' := if m <=? 2 then y - 1 else y in
  let era := y' / 400 in
  let yoe := y' - era * 400 in
  let mp := if 2 <? m then m - 3 else m + 9 in
  let doy := (153 * mp + 2) / 5 + d - 1 in
  let doe := yoe * 365 + yoe / 4 - yoe / 100 + doy in
  era * 146097 + doe - 719468.

(** The date, as (year, month, day), [z] days after 1970-01-01. *)
Definition civil_from_days (z : Z) : Z * Z * Z :=
  let z' := z + 719468 in
  let era := z' / 146097 in
  let doe := z' - era * 146097 in
  let yoe := (doe - doe / 1460 + doe / 36524 - doe / 146096) / 365 in
  let doy := doe - (365 * yoe + yoe / 4 - yoe / 100) in
  let mp := (5 * doy + 2) / 153 in
  let d := doy - (153 * mp + 2) / 5 + 1 in
  let m := if mp <? 10 then mp + 3 else mp - 9 in
  ((if m <=? 2 then yoe + era * 400 + 1 else yoe + era * 400), m, d).

(** 0 is Sunday; 1970-01-01 was a Thursday. *)
Definition weekday (days : Z) : Z := (days + 4) mod 7.

(** A time zone: the offsets of local time to UTC, in seconds, and when
    daylight-saving time is in force, asked with a local wall-clock reading
    (seconds since the epoch as if the reading were UTC) or with a UTC
    instant. *)
Record TimeZone : Type := mk_TimeZone {
  std_offset : Z;
  dst_offset : Z;
  dst_at_local : Z -> bool;
  dst_at_utc : Z -> bool
}.

(** The wall-clock reading of [td], in seconds, with out-of-range fields
    carried over as [mktime] does. *)
Definition wall_seconds (td : tm) : Z :=
  let y := tm_year td + 1900 + tm_mon td / 12 in
  let m := tm_mon td mod 12 + 1 in
  (days_from_civil y m 1 + (tm_mday td - 1)) * 86400
  + tm_hour td * 3600 + tm_min td * 60 + tm_sec td.

Definition localtime (tz : TimeZone) (t : Z) : tm :=
  let dst := dst_at_utc tz t in
  let l := t + (if dst then dst_offset tz else std_offset tz) in
  let '(y, m, d) := civil_from_days (l / 86400) in
  let r := l mod 86400 in
  mk_tm (r mod 60) (r / 60 mod 60) (r / 3600) d (m - 1) (y - 1900)
        (if dst then 1 else 0).

(** [mktime(&td)]: the epoch seconds of the local time [td], and [td]
    rewritten in normal form.  A negative [tm_isdst] lets the zone decide
    whether daylight-saving time applies. *)
Definition mktime (tz : TimeZone) (td : tm) : tm * Z :=
  let l := wall_seconds td in
  let dst := if tm_isdst td <? 0 then dst_at_local tz l
             else 0 <? tm_isdst td in
  let t := l - (if dst then dst_offset tz else std_offset tz) in
  (localtime tz t, t).

End Libc.

(** ** Outcomes of the timer's code *)

(** A run either finishes with a value, is cut off by the iteration bound
    of a loop ([OutOfFuel]; a loop that never ends is cut off whatever the
    bound), or jumps through a null callback pointer ([Fault]). *)
Inductive result (A : Type) : Type :=
  | Ok (a : A)
  | OutOfFuel
  | Fault.
Arguments Ok {A} a.
Arguments OutOfFuel {A}.
Arguments Fault {A}.

Definition bind {A B : Type} (r : result A) (k : A -> result B) : result B :=
  match r with
  | Ok a => k a
  | OutOfFuel => OutOfFuel
  | Fault => Fault
  end.

Notation "x <- e ;; k" := (bind e (fun x => k))
  (at level 61, e at next level, right associativity).

(** ** The host: wall clock, delay and task deletion *)

Module FreeRTOS.

(** [TaskHandle_t]; [None] is [nullptr]. *)
Definition TaskHandle_t : Type := option positive.

(** What the task does to its host, newest event first in a trace. *)
Inductive Event : Type :=
  | EvTime (now : Z)              (* time(nullptr) returned now *)
  | EvCall                        (* the user's callback ran *)
  | EvDelay (ticks : Z)           (* vTaskDelay(ticks) *)
  | EvDelete (h : TaskHandle_t).  (* vTaskDelete(h) *)

(** The wall clock in milliseconds since the epoch and the trace so far.
    Time passes while the task is delayed and while the callback runs;
    the timer's own instructions take no time. *)
Record World : Type := mk_World {
  clock_ms : Z;
  trace : list Event
}.

(** Modelled from the spec: the wall clock collaborator,
    [now() -> epoch seconds (integer)].  [time(nullptr)] reads the clock in
    whole seconds. *)
Definition time (w : World) : Z * World :=
  let now := clock_ms w / 1000 in
  (now, mk_World (clock_ms w) (EvTime now :: trace w)).

(** Modelled from the spec: the macro [pdMS_TO_TICKS] of the host is not
    part of the repository.  The delay collaborator is
    [sleep(durationMillis)]: one tick is one millisecond, and the argument
    is converted to the unsigned 32-bit tick type. *)
Definition pdMS_TO_TICKS (ms : Z) : Z := to_uint32 ms.

(** Modelled from the spec: the delay collaborator blocks the calling unit
    for the duration asked.  [vTaskDelay(ticks)]: the task sleeps for
    exactly [ticks] ticks. *)
Definition vTaskDelay (ticks : Z) (w : World) : World :=
  mk_World (clock_ms w + ticks) (EvDelay ticks :: trace w).

(** Modelled from the spec: the execution-unit collaborator
    [delete(handle)].  [vTaskDelete(h)] releases the unit [h] and control
    comes back to the caller, which goes on to clear the handle. *)
Definition vTaskDelete (h : TaskHandle_t) (w : World) : World :=
  mk_World (clock_ms w) (EvDelete h :: trace w).

Definition is_call (e : Event) : bool :=
  match e with EvCall => true | _ => false end.

Definition is_delay (e : Event) : bool :=
  match e with EvDelay _ => true | _ => false end.

(** Number of callback invocations recorded in a trace. *)
Definition calls (tr : list Event) : nat := List.length (filter is_call tr).

(** Number of delays recorded in a trace. *)
Definition delays (tr : list Event) : nat := List.length (filter is_delay tr).

End FreeRTOS.
Import FreeRTOS.

(** ** StartStopTimer.hpp *)

(** [Callback], a pointer to a function without arguments or result.  A
    callback is opaque to the timer: what the timer sees of it is that it
    ran and how long it took, so a callback is modelled by its running
    time in milliseconds. *)
Record Callback : Type := mk_Callback { cb_ms : Z }.

Record TaskParams : Type := mk_TaskParams {
  tStart : Z;                     (* time_t *)
  tStop : Z;                      (* time_t *)
  tInterval : Z;                  (* time_t *)
  intervalMultiplier : Z;         (* uint32_t *)
  tCyclePeriod : Z;               (* time_t *)
  nbrOfCycles : Z;                (* uint32_t *)
  tskHandle : TaskHandle_t;
  callback : option Callback      (* None is nullptr *)
}.

(** The initial value of the member [_tskParams] of a [StartStopTimer]. *)
Definition _tskParams : TaskParams :=
  mk_TaskParams 0 0 1 1000 86400 1 None None.

Definition with_tStart (p : TaskParams) (v : Z) : TaskParams :=
  mk_TaskParams v (tStop p) (tInterval p) (intervalMultiplier p)
    (tCyclePeriod p) (nbrOfCycles p) (tskHandle p) (callback p).

Definition with_tStop (p : TaskParams) (v : Z) : TaskParams :=
  mk_TaskParams (tStart p) v (tInterval p) (intervalMultiplier p)
    (tCyclePeriod p) (nbrOfCycles p) (tskHandle p) (callback p).

Definition with_tInterval (p : TaskParams) (v : Z) : TaskParams :=
  mk_TaskParams (tStart p) (tStop p) v (intervalMultiplier p)
    (tCyclePeriod p) (nbrOfCycles p) (tskHandle p) (callback p).

Definition with_intervalMultiplier (p : TaskParams) (v : Z) : TaskParams :=
  mk_TaskParams (tStart p) (tStop p) (tInterval p) v
    (tCyclePeriod p) (nbrOfCycles p) (tskHandle p) (callback p).

Definition with_tCyclePeriod (p : TaskParams) (v : Z) : TaskParams :=
  mk_TaskParams (tStart p) (tStop p) (tInterval p) (intervalMultiplier p)
    v (nbrOfCycles p) (tskHandle p) (callback p).

Definition with_nbrOfCycles (p : TaskParams) (v : Z) : TaskParams :=
  mk_TaskParams (tStart p) (tStop p) (tInterval p) (intervalMultiplier p)
    (tCyclePeriod p) v (tskHandle p) (callback p).

Definition with_tskHandle (p : TaskParams) (v : TaskHandle_t) : TaskParams :=
  mk_TaskParams (tStart p) (tStop p) (tInterval p) (intervalMultiplier p)
    (tCyclePeriod p) (nbrOfCycles p) v (callback p).

Definition with_callback (p : TaskParams) (v : option Callback) : TaskParams :=
  mk_TaskParams (tStart p) (tStop p) (tInterval p) (intervalMultiplier p)
    (tCyclePeriod p) (nbrOfCycles p) (tskHandle p) v.

(** ** StartStopTimer.cpp *)

(** The member functions act on the [_tskParams] of their object, which is
    passed and returned explicitly. *)

Definition setCycleStart (p : TaskParams) (tsecStart : Z) : TaskParams :=
  with_tStart p tsecStart.

Definition setCycleStop (p : TaskParams) (tsecStop : Z) : TaskParams :=
  with_tStop p tsecStop.

Definition setTaskInterval (p : TaskParams) (tsecInterval : Z) : TaskParams :=
  with_tInterval p tsecInterval.

Definition setCyclePeriod (p : TaskParams) (tsecPeriod : Z) : TaskParams :=
  with_tCyclePeriod p tsecPeriod.

Definition setNbrOfCycles (p : TaskParams) (n : Z) : TaskParams :=
  with_nbrOfCycles p n.

Definition setIntervalMultiplier (p : TaskParams) (factor : Z) : TaskParams :=
  with_intervalMultiplier p factor.

Definition getTaskHandle (p : TaskParams) : TaskHandle_t := tskHandle p.

Definition deleteTask (p : TaskParams) (w : World) : TaskParams * World :=
  (with_tskHandle p None, vTaskDelete (tskHandle p) w).

(** [init]: the callback is stored and [xTaskCreate] is asked for a task
    that runs [_taskFunction] on [_tskParams]; the task is suspended at
    once.  [created] is the handle the host hands out, [None] when it
    cannot create the task, and then [init] never returns.  The stack depth
    and the priority go to the host as they are and are not kept here. *)
Definition init (p : TaskParams) (cb : option Callback)
    (created : option positive) : result TaskParams :=
  match created with
  | Some h => Ok (with_tskHandle (with_callback p cb) (Some h))
  | None => OutOfFuel
  end.

(** The targets of a [sscanf] call keep their contents where no value was
    assigned. *)
Fixpoint assign (targets values : list Z) : list Z :=
  match targets, values with
  | _ :: ts, v :: vs => v :: assign ts vs
  | _, _ => targets
  end.

Definition scan_date (td : Libc.tm) (text : string) : Libc.tm :=
  match assign [Libc.tm_year td; Libc.tm_mon td; Libc.tm_mday td;
                Libc.tm_hour td; Libc.tm_min td]
               (Libc.sscanf text "%d-%d-%d %d:%d") with
  | [y; mo; d; h; mi] =>
      Libc.mk_tm (Libc.tm_sec td) mi h d mo y (Libc.tm_isdst td)
  | _ => td
  end.

(** [td.tm_year -= 1900; td.tm_mon -= 1; td.tm_isdst = -1;] *)
Definition adjust_date (td : Libc.tm) : Libc.tm :=
  Libc.mk_tm (Libc.tm_sec td) (Libc.tm_min td) (Libc.tm_hour td)
    (Libc.tm_mday td) (int_sub (Libc.tm_mon td) 1)
    (int_sub (Libc.tm_year td) 1900) (-1).

(** [sscanf(taskInterval, "%d:%d", &tskHH, &tskMM)] and the interval in
    seconds, [60 * (60 * tskHH + tskMM)] computed in [int] from the two
    locals, which hold [tskHH0] and [tskMM0] before the call (of these
    only the low 32 bits count). *)
Definition scan_interval (tskHH0 tskMM0 : Z) (taskInterval : string) : Z :=
  let hhmm := assign [tskHH0; tskMM0] (Libc.sscanf taskInterval "%d:%d") in
  let tskHH := nth 0 hhmm 0 in
  let tskMM := nth 1 hhmm 0 in
  int_mul 60 (int_add (int_mul 60 tskHH) tskMM).

(** The statements that turn a date text into a timestamp: [sscanf] into
    the fields of [td], the two subtractions, [tm_isdst = -1], [mktime]. *)
Definition date_to_time (tz : Libc.TimeZone) (td : Libc.tm) (text : string)
    : Libc.tm * Z :=
  Libc.mktime tz (adjust_date (scan_date td text)).

(** [setCycleStartStop].  [tz] is the time zone in force; [tskHH0] and
    [tskMM0] are the contents of the uninitialised locals [tskHH] and
    [tskMM] when the function is entered.  The function returns nothing:
    its only result is the updated [_tskParams]. *)
Definition setCycleStartStop (tz : Libc.TimeZone) (tskHH0 tskMM0 : Z)
    (p : TaskParams) (startDateTime stopDateTime taskInterval : string)
    : TaskParams :=
  let td := Libc.tm_zero in
  let p := with_tInterval p (scan_interval tskHH0 tskMM0 taskInterval) in
  let '(td, t) := date_to_time tz td startDateTime in
  let p := with_tStart p t in
  let '(td, t) := date_to_time tz td stopDateTime in
  let p := with_tStop p t in
  let p := with_tCyclePeriod p 86400 in
  with_nbrOfCycles p
    (to_uint32 (1 + Z.quot (tStop p - tStart p) (tCyclePeriod p))).

(** [p->callback()] *)
Definition call (cb : option Callback) (w : World) : result World :=
  match cb with
  | Some c => Ok (mk_World (clock_ms w + cb_ms c) (EvCall :: trace w))
  | None => Fault
  end.

(** [while (time(nullptr) < bound) { body }].  Both loops of the task
    function have this shape ([p->tStart > time(nullptr)] is the same
    test).  [fuel] bounds the number of iterations. *)
Fixpoint while_time_before (bound : Z) (body : World -> result World)
    (fuel : nat) (w : World) {struct fuel} : result World :=
  let '(now, w1) := time w in
  if now <? bound then
    match fuel with
    | O => OutOfFuel
    | S fuel' =>
        w2 <- body w1 ;;
        while_time_before bound body fuel' w2
    end
  else Ok w1.

(** Wait until start time of the cycle is reached. *)
Definition wait_body (w : World) : result World :=
  Ok (vTaskDelay (pdMS_TO_TICKS 10) w).

(** Do task until stop time is reached. *)
Definition active_body (p : TaskParams) (w : World) : result World :=
  w1 <- call (callback p) w ;;
  Ok (vTaskDelay (pdMS_TO_TICKS (intervalMultiplier p * tInterval p)) w1).

(** [while (p->tStart > time(nullptr)) { vTaskDelay(pdMS_TO_TICKS(10)); }] *)
Definition wait_phase (fuel : nat) (p : TaskParams) (w : World)
    : result World :=
  while_time_before (tStart p) wait_body fuel w.

(** [while (time(nullptr) < p->tStop) { ... }] *)
Definition active_phase (fuel : nat) (p : TaskParams) (w : World)
    : result World :=
  while_time_before (tStop p) (active_body p) fuel w.

(** The body of the [for] loop: one cycle. *)
Definition cycle (fuel : nat) (p : TaskParams) (w : World)
    : result (TaskParams * World) :=
  w1 <- wait_phase fuel p w ;;
  let '(now, w2) := time w1 in
  let p := with_tStart p now in    (* remember start time of cycle *)
  w3 <- active_phase fuel p w2 ;;
  let p := with_tStart p (tStart p + tCyclePeriod p) in
  let p := with_tStop p (tStop p + tCyclePeriod p) in
  Ok (p, w3).

(** [for (uint32_t n = ...; n < p->nbrOfCycles; n++)], entered with the
    counter at [n]. *)
Fixpoint for_cycles (fuel : nat) (n : Z) (p : TaskParams) (w : World)
    {struct fuel} : result (TaskParams * World) :=
  if n <? nbrOfCycles p then
    match fuel with
    | O => OutOfFuel
    | S fuel' =>
        pw <- cycle fuel' p w ;;
        for_cycles fuel' (to_uint32 (n + 1)) (fst pw) (snd pw)
    end
  else Ok (p, w).

(** [_taskFunction]: the cycles one after the other, then the task deletes
    itself and clears its handle.  The function has no result of its own;
    what comes back is the record it worked on and the world. *)
Definition _taskFunction (fuel : nat) (p : TaskParams) (w : World)
    : result (TaskParams * World) :=
  pw <- for_cycles fuel 0 p w ;;
  let p := fst pw in
  let w := vTaskDelete (tskHandle p) (snd pw) in    (* delete task *)
  Ok (with_tskHandle p None, w).

(** ** freeRTOStasks.cpp *)

Module App.

(** [TIME_ZONE = "MEZ-1MESZ-2,M3.5.0/02:00:00,M10.5.0/03:00:00"]: local
    time is one hour ahead of UTC, two hours in daylight-saving time, which
    runs from the last Sunday of March, 02:00, to the last Sunday of
    October, 03:00. *)
Definition last_sunday (y m : Z) : Z :=
  let d := Libc.days_from_civil y m 31 in
  d - Libc.weekday d.

Definition year_of (secs : Z) : Z :=
  let '(y, _, _) := Libc.civil_from_days (secs / 86400) in y.

Definition TIME_ZONE : Libc.TimeZone :=
  Libc.mk_TimeZone 3600 7200
    (fun l => let y := year_of l in
              (last_sunday y 3 * 86400 + 7200 <=? l)
              && (l <? last_sunday y 10 * 86400 + 10800))
    (fun t => let y := year_of t in
              (last_sunday y 3 * 86400 + 3600 <=? t)
              && (t <? last_sunday y 10 * 86400 + 3600)).

(** The callbacks, by the time they spend in [vTaskDelay]. *)
Definition blinkLed : Callback := mk_Callback 10.
Definition showTime : Callback := mk_Callback 0.
Definition flashSOS : Callback :=
  mk_Callback (3 * (50 + 450) + 3 * (150 + 450) + 3 * (50 + 450)).
Definition takePhoto : Callback := mk_Callback 0.

(** The timer of [initTask2] when the clock reads [now] seconds and the
    host hands out the handle [h]. *)
Definition initTask2 (now : Z) (h : positive) : result TaskParams :=
  let task2 := _tskParams in
  let task2 := setTaskInterval task2 2 in
  let task2 := setCycleStart task2 now in
  let task2 := setCycleStop task2 (now + 10) in
  let task2 := setCyclePeriod task2 30 in
  let task2 := setNbrOfCycles task2 3 in
  init task2 (Some showTime) (Some h).

(** The timer of [initTask3]. *)
Definition initTask3 (now : Z) (h : positive) : result TaskParams :=
  let task3 := _tskParams in
  let task3 := setTaskInterval task3 10 in
  let task3 := setCycleStart task3 now in
  let task3 := setCycleStop task3 (now + 50) in
  let task3 := setCyclePeriod task3 120 in
  let task3 := setNbrOfCycles task3 3 in
  init task3 (Some flashSOS) (Some h).

(** The schedule of [task4] in [initTask4]. *)
Definition task4 (tskHH0 tskMM0 : Z) : TaskParams :=
  setCycleStartStop TIME_ZONE tskHH0 tskMM0 _tskParams
    "2023-06-13 22:40" "2023-06-14 06:15" "00:05".

(** The timer of [initTask4]. *)
Definition initTask4 (tskHH0 tskMM0 : Z) (h : positive) : result TaskParams :=
  init (task4 tskHH0 tskMM0) (Some takePhoto) (Some h).

End App.

(** ** Closed forms used in the statements *)

(** Number of iterations of [while (time(nullptr) < bound)] entered with
    the clock at [c] ms, when an iteration lasts [d] ms: the least [k] with
    [1000 * bound <= c + k * d]. *)
Definition iterations (bound d c : Z) : Z :=
  Z.max 0 (cdiv (1000 * bound - c) d).

Definition polls (bound d c : Z) : nat := Z.to_nat (cdiv (1000 * bound - c) d).

(** The trace left by [k] iterations entered with the clock at [c] ms, each
    of which reads the clock, adds the events [evs] and lasts [d] ms. *)
Fixpoint poll_trace (evs : list Event) (d : Z) (k : nat) (c : Z)
    (tr : list Event) : list Event :=
  match k with
  | O => tr
  | S k' => poll_trace evs d k' (c + d) (evs ++ EvTime (c / 1000) :: tr)
  end.

(** The state in which such a loop ends. *)
Definition poll_end (bound d : Z) (evs : list Event) (w : World) : World :=
  let k := polls bound d (clock_ms w) in
  let c := clock_ms w + Z.of_nat k * d in
  mk_World c (EvTime (c / 1000) :: poll_trace evs d k (clock_ms w) (trace w)).

(** Length of the delay of the active phase, in ticks. *)
Definition sleep_ms (p : TaskParams) : Z :=
  pdMS_TO_TICKS (intervalMultiplier p * tInterval p).

(** Time from one invocation of the callback to the next. *)
Definition period_ms (cb : Callback) (p : TaskParams) : Z :=
  cb_ms cb + sleep_ms p.

(** Clock reading, in ms, at which the wait phase entered at [c] ms ends. *)
Definition wait_exit_ms (p : TaskParams) (c : Z) : Z :=
  c + Z.of_nat (polls (tStart p) 10 c) * 10.

(** The state after one cycle, for a callback [cb]. *)
Definition cycle_end (cb : Callback) (pw : TaskParams * World)
    : TaskParams * World :=
  let '(p, w) := pw in
  let w1 := poll_end (tStart p) 10 [EvDelay 10] w in
  let now := clock_ms w1 / 1000 in
  let w2 := mk_World (clock_ms w1) (EvTime now :: trace w1) in
  let w3 := poll_end (tStop p) (period_ms cb p)
              [EvDelay (sleep_ms p); EvCall] w2 in
  (with_tStop (with_tStart p (now + tCyclePeriod p))
     (tStop p + tCyclePeriod p), w3).

Fixpoint cycles_end (cb : Callback) (k : nat) (pw : TaskParams * World)
    : TaskParams * World :=
  match k with
  | O => pw
  | S k' => cycles_end cb k' (cycle_end cb pw)
  end.

(** The count stored for a window that closes [q] whole days before it
    opens: [1 - q] in 32 bits. *)
Definition reversed_count (q : Z) : Z :=
  if q =? 0 then 1 else if q =? 1 then 0 else 2 ^ 32 - (q - 1).

(** Fuel that lets a cycle run to its end. *)
Definition cycle_fuel (cb : Callback) (p : TaskParams) (w : World) : nat :=
  Nat.max (polls (tStart p) 10 (clock_ms w))
          (polls (tStop p) (period_ms cb p) (wait_exit_ms p (clock_ms w))).

(** ** Example schedules *)

Module Examples.

(** [initTask4] with the interval text ["5"]. *)
Definition interval_without_colon : TaskParams :=
  setCycleStartStop App.TIME_ZONE 0 0 _tskParams
    "2023-06-13 22:40" "2023-06-14 06:15" "5".

(** [initTask4] with a start text that gives the date and no time. *)
Definition start_without_time : TaskParams :=
  setCycleStartStop App.TIME_ZONE 0 0 _tskParams
    "2023-06-13" "2023-06-14 06:15" "00:05".

(** [initTask4] with the two dates exchanged: the window closes 27300
    seconds before it opens. *)
Definition reversed_window : TaskParams :=
  setCycleStartStop App.TIME_ZONE 0 0 _tskParams
    "2023-06-14 06:15" "2023-06-13 22:40" "00:05".

(** The window closes one day and 27300 seconds before it opens. *)
Definition reversed_by_a_day : TaskParams :=
  setCycleStartStop App.TIME_ZONE 0 0 _tskParams
    "2023-06-15 06:15" "2023-06-13 22:40" "00:05".

(** The window closes three days before it opens. *)
Definition reversed_by_three_days : TaskParams :=
  setCycleStartStop App.TIME_ZONE 0 0 _tskParams
    "2023-06-16 22:40" "2023-06-13 22:40" "00:05".

(** The scenario of a ten-second window with a two-second interval: the
    window opens when the clock reads [now] seconds. *)
Definition ten_second_window (now : Z) : TaskParams :=
  let t := _tskParams in
  let t := setTaskInterval t 2 in
  let t := setCycleStart t now in
  let t := setCycleStop t (now + 10) in
  with_tskHandle (with_callback t (Some App.showTime)) (Some 1%positive).

(** The same with a multiplier of 1: the delay between two invocations
    is two milliseconds. *)
Definition ten_second_window_x1 (now : Z) : TaskParams :=
  setIntervalMultiplier (ten_second_window now) 1.

(** A window that is already closed when it opens. *)
Definition empty_window (now : Z) : TaskParams :=
  setCycleStop (ten_second_window now) now.

(** Two cycles of a four-second window, one right after the other. *)
Definition two_short_cycles : TaskParams :=
  let t := ten_second_window 0 in
  let t := setCycleStop t 4 in
  let t := setCyclePeriod t 4 in
  setNbrOfCycles t 2.

(** A timer with no cycle to run. *)
Definition no_cycle : TaskParams := setNbrOfCycles (ten_second_window 0) 0.

(** A ten-second window with an interval of zero and the callback
    [blinkLed]. *)
Definition zero_interval : TaskParams :=
  with_callback (setTaskInterval (ten_second_window 0) 0) (Some App.blinkLed).

(** The world when the clock reads [ms] milliseconds and nothing has
    happened yet. *)
Definition world_at (ms : Z) : World := mk_World ms [].

(** Of a finished run, the number of invocations and the handle left. *)
Definition summary (r : result (TaskParams * World))
    : option (nat * TaskHandle_t) :=
  match r with
  | Ok (p, w) => Some (calls (trace w), tskHandle p)
  | _ => None
  end.

End Examples.

(** ** Further definitions: traces of the loops, well-formed texts, the
    callbacks of the sketch *)

(** The events of the iterations of a loop, newest first: [ts] are the
    clock readings that let an iteration start, each followed by the events
    [evs] of the iteration. *)
Fixpoint blocks (evs : list Event) (ts : list Z) : list Event :=
  match ts with
  | [] => []
  | t :: r => evs ++ EvTime t :: blocks evs r
  end.

(** Every invocation recorded in [tr] comes right after a clock reading
    below [stop]. *)
Fixpoint calls_guarded (stop : Z) (tr : list Event) : bool :=
  match tr with
  | [] => true
  | EvCall :: r =>
      match r with
      | EvTime t :: _ => (t <? stop) && calls_guarded stop r
      | _ => false
      end
  | _ :: r => calls_guarded stop r
  end.

(** Texts of the layouts [HH:MM] and [YYYY-MM-DD HH:MM], with any number of
    digits in each field. *)
Module Text.

(** The character of the decimal digit [d]. *)
Definition digit_char (d : Z) : ascii := ascii_of_nat (Z.to_nat (48 + d)).

Definition is_digit (d : Z) : Prop := 0 <= d <= 9.

(** A field: a non-empty list of decimal digits, most significant first. *)
Definition field (ds : list Z) : Prop := ds <> [] /\ Forall is_digit ds.

Definition number_text (ds : list Z) : list ascii := map digit_char ds.

Definition number_value (ds : list Z) : Z :=
  fold_left (fun a d => 10 * a + d) ds 0.

(** A field whose number fits an [int]. *)
Definition int_field (ds : list Z) : Prop :=
  field ds /\ number_value ds < 2 ^ 31.

Definition interval_text (hh mm : list Z) : string :=
  string_of_list_ascii (number_text hh ++ ":"%char :: number_text mm).

Definition date_text (y mo d hh mm : list Z) : string :=
  string_of_list_ascii
    (number_text y ++ "-"%char :: number_text mo ++ "-"%char ::
     number_text d ++ " "%char :: number_text hh ++ ":"%char ::
     number_text mm).

(** An interval text with blanks before each field and anything that does
    not begin with a digit after the minutes. *)
Definition padded_interval_text (k j : nat) (hh mm : list Z)
    (trailer : list ascii) : string :=
  string_of_list_ascii
    (repeat " "%char k ++ number_text hh ++
     ":"%char :: repeat " "%char j ++ number_text mm ++ trailer).

(** An interval text with a minus sign before the hours. *)
Definition negative_interval_text (hh mm : list Z) : string :=
  string_of_list_ascii
    ("-"%char :: number_text hh ++ ":"%char :: number_text mm).

End Text.

(** The callbacks of [freeRTOStasks.cpp] with what they do to the board. *)
Module Sketch.

Definition LED_BUILTIN : Z := 33.
Definition FLASH_LED : Z := 4.
Definition HIGH : bool := true.
Definition LOW : bool := false.

(** What a callback does, newest first in the log of the board. *)
Inductive Op : Type :=
  | Write (pin : Z) (level : bool)        (* digitalWrite(pin, level) *)
  | Delay (ticks : Z)                     (* vTaskDelay(ticks) *)
  | Printf (format : string) (arg : Z).   (* Serial.printf(format, arg) *)

(** The clock in milliseconds, the level of each pin and the log. *)
Record Board : Type := mk_Board {
  clock : Z;
  level : Z -> bool;
  ops : list Op
}.

Definition digitalWrite (pin : Z) (v : bool) (b : Board) : Board :=
  mk_Board (clock b) (fun q => if q =? pin then v else level b q)
    (Write pin v :: ops b).

Definition vTaskDelay (ticks : Z) (b : Board) : Board :=
  mk_Board (clock b + ticks) (level b) (Delay ticks :: ops b).

Definition printf (format : string) (arg : Z) (b : Board) : Board :=
  mk_Board (clock b) (level b) (Printf format arg :: ops b).

(** [blinkLed] *)
Definition blinkLed (b : Board) : Board :=
  let b := digitalWrite LED_BUILTIN LOW b in       (* Turn the LED on *)
  let b := vTaskDelay (pdMS_TO_TICKS 10) b in      (* Pause the task *)
  digitalWrite LED_BUILTIN HIGH b.                 (* Turn the LED off *)

(** The body of each of the three [for] loops of [flashSOS]. *)
Definition flash (on_ms : Z) (b : Board) : Board :=
  let b := digitalWrite FLASH_LED HIGH b in
  let b := vTaskDelay (pdMS_TO_TICKS on_ms) b in
  let b := digitalWrite FLASH_LED LOW b in
  vTaskDelay (pdMS_TO_TICKS 450) b.

(** [flashSOS]: [for (int i = 0; i < 3; i++)] three times over. *)
Definition flashSOS (b : Board) : Board :=
  let b := Nat.iter 3 (flash 50) b in
  let b := Nat.iter 3 (flash 150) b in
  Nat.iter 3 (flash 50) b.

(** [takePhoto].  The static [cntPhoto] is passed and returned. *)
Definition takePhoto (st : Z * Board) : Z * Board :=
  let '(cntPhoto, b) := st in
  let cntPhoto := cntPhoto + 1 in
  (cntPhoto, printf "Photo taken: %d\n" cntPhoto b).

(** Total of the delays in a log. *)
Fixpoint delayed (l : list Op) : Z :=
  match l with
  | [] => 0
  | Delay t :: r => t + delayed r
  | _ :: r => delayed r
  end.

(** Number of times [pin] was driven to [v] in a log. *)
Fixpoint writes (pin : Z) (v : bool) (l : list Op) : nat :=
  match l with
  | [] => 0%nat
  | Write q u :: r =>
      ((if (q =? pin)%Z && Bool.eqb u v then 1 else 0) + writes pin v r)%nat
  | _ :: r => writes pin v r
  end.


End Sketch.

(** A schedule that keeps to the grid: the period between two invocations
    is a positive multiple of the 10 ms of the wait phase, the cycle is
    entered on the grid and no later than its start time, the window does
    not close before it opens, and the invocations of one cycle, with
    their delays, fit in the cycle period. *)
Definition on_grid (cb : Callback) (p : TaskParams) (w : World) : Prop :=
  0 < period_ms cb p /\
  period_ms cb p mod 10 = 0 /\
  clock_ms w mod 10 = 0 /\
  clock_ms w <= 1000 * tStart p /\
  tStart p <= tStop p /\
  cdiv (1000 * (tStop p - tStart p)) (period_ms cb p) * period_ms cb p
    <= 1000 * tCyclePeriod p.

(** The schedule of [initTask3], with the handle [h]. *)
Definition task3_schedule (now : Z) (h : positive) : TaskParams :=
  let task3 := _tskParams in
  let task3 := setTaskInterval task3 10 in
  let task3 := setCycleStart task3 now in
  let task3 := setCycleStop task3 (now + 50) in
  let task3 := setCyclePeriod task3 120 in
  let task3 := setNbrOfCycles task3 3 in
  with_tskHandle (with_callback task3 (Some App.flashSOS)) (Some h).

(** * Properties *)

(** ** Arithmetic of the loops *)

Lemma seconds_before (c bound : Z) :
  (c / 1000 <? bound) = true <-> c < 1000 * bound.
Proof.
  rewrite Z.ltb_lt.
  pose proof (Z.div_mod c 1000 ltac:(lia)) as E.
  pose proof (Z.mod_pos_bound c 1000 ltac:(lia)) as B.
  lia.
Qed.

Lemma seconds_reached (c bound : Z) :
  (c / 1000 <? bound) = false <-> 1000 * bound <= c.
Proof.
  rewrite Z.ltb_ge.
  pose proof (Z.div_mod c 1000 ltac:(lia)) as E.
  pose proof (Z.mod_pos_bound c 1000 ltac:(lia)) as B.
  lia.
Qed.

Lemma cdiv_nonpos (x d : Z) : 0 < d -> x <= 0 -> cdiv x d <= 0.
Proof.
  intros Hd Hx. unfold cdiv.
  assert ((x + d - 1) / d < 1); [| lia].
  apply Z.div_lt_upper_bound; lia.
Qed.

Lemma cdiv_pos (x d : Z) : 0 < d -> 0 < x -> 1 <= cdiv x d.
Proof.
  intros Hd Hx. unfold cdiv.
  apply Z.div_le_lower_bound; lia.
Qed.

Lemma cdiv_step (x d : Z) : 0 < d -> cdiv (x - d) d = cdiv x d - 1.
Proof.
  intros Hd. unfold cdiv.
  replace (x - d + d - 1) with (x + d - 1 + (-1) * d) by lia.
  rewrite Z.div_add; lia.
Qed.

(** [cdiv] is the ceiling: the least [k] with [x <= k * d]. *)
Lemma cdiv_ceiling (x d : Z) :
  0 < d -> x <= cdiv x d * d /\ (cdiv x d - 1) * d < x.
Proof.
  intros Hd. unfold cdiv.
  pose proof (Z.div_mod (x + d - 1) d ltac:(lia)) as E.
  pose proof (Z.mod_pos_bound (x + d - 1) d Hd) as B.
  nia.
Qed.

Lemma polls_closed (bound d c : Z) :
  0 < d -> 1000 * bound <= c -> polls bound d c = 0%nat.
Proof.
  intros Hd Hc. unfold polls.
  pose proof (cdiv_nonpos (1000 * bound - c) d Hd ltac:(lia)). lia.
Qed.

Lemma polls_open (bound d c : Z) :
  0 < d -> c < 1000 * bound ->
  polls bound d c = S (polls bound d (c + d)).
Proof.
  intros Hd Hc. unfold polls.
  replace (1000 * bound - (c + d)) with (1000 * bound - c - d) by lia.
  rewrite cdiv_step by assumption.
  pose proof (cdiv_pos (1000 * bound - c) d Hd ltac:(lia)). lia.
Qed.

Lemma polls_iterations (bound d c : Z) :
  Z.of_nat (polls bound d c) = iterations bound d c.
Proof. unfold polls, iterations. lia. Qed.

(** ** Counting events *)

Lemma calls_app (t1 t2 : list Event) :
  calls (t1 ++ t2) = (calls t1 + calls t2)%nat.
Proof. unfold calls. rewrite filter_app, length_app. reflexivity. Qed.

Lemma delays_app (t1 t2 : list Event) :
  delays (t1 ++ t2) = (delays t1 + delays t2)%nat.
Proof. unfold delays. rewrite filter_app, length_app. reflexivity. Qed.

Lemma calls_poll_trace (evs : list Event) (d : Z) (k : nat) :
  forall c tr,
    calls (poll_trace evs d k c tr) = (k * calls evs + calls tr)%nat.
Proof.
  induction k as [| k IH]; intros c tr; simpl.
  - reflexivity.
  - rewrite IH, calls_app. unfold calls at 3. simpl. fold (calls tr). lia.
Qed.

(** ** The loops *)

Section PollLoop.

Variables (bound d : Z) (evs : list Event) (body : World -> result World).
Hypothesis d_pos : 0 < d.
Hypothesis body_step :
  forall w, body w = Ok (mk_World (clock_ms w + d) (evs ++ trace w)).

(** With enough fuel the loop ends in [poll_end]. *)
Lemma while_time_before_end :
  forall k w fuel,
    k = polls bound d (clock_ms w) -> (k <= fuel)%nat ->
    while_time_before bound body fuel w = Ok (poll_end bound d evs w).
Proof.
  induction k as [| k IH]; intros w fuel Hk Hfuel.
  - assert (Hc : (clock_ms w / 1000 <? bound) = false).
    { destruct (clock_ms w / 1000 <? bound) eqn:E; [| reflexivity].
      apply seconds_before in E.
      rewrite (polls_open _ _ _ d_pos E) in Hk. discriminate. }
    unfold poll_end. rewrite <- Hk.
    destruct fuel; simpl; rewrite Hc;
      rewrite Z.add_0_r; reflexivity.
  - assert (Hc : clock_ms w < 1000 * bound).
    { destruct (Z_lt_le_dec (clock_ms w) (1000 * bound)) as [L | L];
        [assumption |].
      rewrite (polls_closed _ _ _ d_pos L) in Hk. discriminate. }
    destruct fuel as [| fuel]; [lia |].
    pose proof (proj2 (seconds_before _ _) Hc) as Hb.
    rewrite (polls_open _ _ _ d_pos Hc) in Hk. injection Hk as Hk.
    simpl. rewrite Hb, body_step. simpl.
    rewrite (IH _ fuel); [| simpl; assumption | lia].
    unfold poll_end. simpl.
    rewrite (polls_open _ _ _ d_pos Hc). simpl poll_trace.
    replace (clock_ms w + d + Z.of_nat (polls bound d (clock_ms w + d)) * d)
      with (clock_ms w
            + Z.of_nat (S (polls bound d (clock_ms w + d))) * d) by lia.
    reflexivity.
Qed.

End PollLoop.

(** More fuel does not change a result. *)
Lemma while_time_before_mono (bound : Z) (body : World -> result World) :
  forall fuel w r,
    while_time_before bound body fuel w = Ok r ->
    forall fuel', (fuel <= fuel')%nat ->
    while_time_before bound body fuel' w = Ok r.
Proof.
  induction fuel as [| fuel IH]; intros w r H fuel' Hle.
  - simpl in H. destruct fuel'; simpl;
      destruct (clock_ms w / 1000 <? bound); try discriminate; assumption.
  - destruct fuel' as [| fuel']; [lia |].
    simpl in H |- *.
    destruct (clock_ms w / 1000 <? bound); [| assumption].
    destruct (body _) as [w2 | |]; simpl in H |- *; try discriminate.
    apply IH; [assumption | lia].
Qed.

Lemma wait_body_step (w : World) :
  wait_body w = Ok (mk_World (clock_ms w + 10) ([EvDelay 10] ++ trace w)).
Proof. reflexivity. Qed.

Lemma active_body_step (cb : Callback) (p : TaskParams) (w : World) :
  callback p = Some cb ->
  active_body p w =
  Ok (mk_World (clock_ms w + period_ms cb p)
        ([EvDelay (sleep_ms p); EvCall] ++ trace w)).
Proof.
  intros Hcb. unfold active_body, call, period_ms. rewrite Hcb. simpl.
  unfold vTaskDelay. simpl. fold (sleep_ms p).
  rewrite Z.add_assoc. reflexivity.
Qed.

Lemma wait_phase_runs (p : TaskParams) (w : World) (fuel : nat) :
  (polls (tStart p) 10 (clock_ms w) <= fuel)%nat ->
  wait_phase fuel p w = Ok (poll_end (tStart p) 10 [EvDelay 10] w).
Proof.
  intros Hfuel. unfold wait_phase.
  apply (while_time_before_end (tStart p) 10 [EvDelay 10] wait_body
           ltac:(lia) wait_body_step _ w fuel eq_refl Hfuel).
Qed.

Lemma cycle_runs (cb : Callback) (p : TaskParams) (w : World) (fuel : nat) :
  callback p = Some cb -> 0 < period_ms cb p ->
  (cycle_fuel cb p w <= fuel)%nat ->
  cycle fuel p w = Ok (cycle_end cb (p, w)).
Proof.
  intros Hcb Hd Hfuel. unfold cycle_fuel in Hfuel.
  unfold cycle, wait_phase, active_phase.
  rewrite (while_time_before_end (tStart p) 10 [EvDelay 10] wait_body
             ltac:(lia) wait_body_step _ w fuel eq_refl) by lia.
  cbn [bind]. unfold time.
  set (w1 := poll_end (tStart p) 10 [EvDelay 10] w).
  set (p1 := with_tStart p (clock_ms w1 / 1000)).
  set (w2 := mk_World (clock_ms w1) (EvTime (clock_ms w1 / 1000) :: trace w1)).
  assert (Hcb1 : callback p1 = Some cb) by exact Hcb.
  rewrite (while_time_before_end (tStop p1) (period_ms cb p1)
             [EvDelay (sleep_ms p1); EvCall] (active_body p1)
             Hd (fun w => active_body_step cb p1 w Hcb1) _ w2 fuel eq_refl).
  - reflexivity.
  - change (polls (tStop p) (period_ms cb p) (wait_exit_ms p (clock_ms w))
            <= fuel)%nat.
    lia.
Qed.

Lemma cycle_mono (fuel : nat) (p : TaskParams) (w : World)
    (r : TaskParams * World) :
  cycle fuel p w = Ok r ->
  forall fuel', (fuel <= fuel')%nat -> cycle fuel' p w = Ok r.
Proof.
  unfold cycle, wait_phase, active_phase. intros H fuel' Hle.
  destruct (while_time_before (tStart p) wait_body fuel w) as [w1 | |] eqn:E1;
    try discriminate.
  rewrite (while_time_before_mono _ _ _ _ _ E1 _ Hle).
  simpl in H |- *.
  destruct (while_time_before (tStop _) _ fuel _) as [w3 | |] eqn:E3;
    try discriminate.
  rewrite (while_time_before_mono _ _ _ _ _ E3 _ Hle).
  assumption.
Qed.

Lemma for_cycles_mono :
  forall fuel n p w r,
    for_cycles fuel n p w = Ok r ->
    forall fuel', (fuel <= fuel')%nat -> for_cycles fuel' n p w = Ok r.
Proof.
  induction fuel as [| fuel IH]; intros n p w r H fuel' Hle.
  - simpl in H. destruct fuel'; simpl;
      destruct (n <? nbrOfCycles p); try discriminate; assumption.
  - destruct fuel' as [| fuel']; [lia |].
    simpl in H |- *.
    destruct (n <? nbrOfCycles p); [| assumption].
    destruct (cycle fuel p w) as [pw | |] eqn:E; try discriminate.
    rewrite (cycle_mono _ _ _ _ E fuel') by lia.
    simpl in H |- *. apply IH; [assumption | lia].
Qed.

Lemma taskFunction_mono (fuel : nat) (p : TaskParams) (w : World)
    (r : TaskParams * World) :
  _taskFunction fuel p w = Ok r ->
  forall fuel', (fuel <= fuel')%nat -> _taskFunction fuel' p w = Ok r.
Proof.
  unfold _taskFunction. intros H fuel' Hle.
  destruct (for_cycles fuel 0 p w) as [pw | |] eqn:E; try discriminate.
  rewrite (for_cycles_mono _ _ _ _ _ E _ Hle). assumption.
Qed.

(** The result does not depend on the fuel. *)
Lemma taskFunction_deterministic (f1 f2 : nat) (p : TaskParams) (w : World)
    (r1 r2 : TaskParams * World) :
  _taskFunction f1 p w = Ok r1 -> _taskFunction f2 p w = Ok r2 -> r1 = r2.
Proof.
  intros H1 H2.
  pose proof (taskFunction_mono _ _ _ _ H1 (Nat.max f1 f2) ltac:(lia)) as E1.
  pose proof (taskFunction_mono _ _ _ _ H2 (Nat.max f1 f2) ltac:(lia)) as E2.
  congruence.
Qed.

(** What a cycle leaves unchanged, and how it moves the window. *)
Lemma cycle_end_params (cb : Callback) (p : TaskParams) (w : World) :
  fst (cycle_end cb (p, w)) =
  with_tStop
    (with_tStart p (wait_exit_ms p (clock_ms w) / 1000 + tCyclePeriod p))
    (tStop p + tCyclePeriod p).
Proof. reflexivity. Qed.

Lemma to_uint32_small (z : Z) : 0 <= z < 2 ^ 32 -> to_uint32 z = z.
Proof. intros H. unfold to_uint32. apply Z.mod_small. assumption. Qed.

(** All the cycles: with enough fuel the [for] loop entered at [n] runs the
    [k] cycles that are left. *)
Lemma for_cycles_runs (cb : Callback) :
  forall k n p w,
    callback p = Some cb -> 0 < period_ms cb p ->
    0 <= n -> nbrOfCycles p < 2 ^ 32 ->
    Z.of_nat k = nbrOfCycles p - n ->
    exists N, forall fuel, (N <= fuel)%nat ->
      for_cycles fuel n p w = Ok (cycles_end cb k (p, w)).
Proof.
  induction k as [| k IH]; intros n p w Hcb Hd Hn Hmax Hk.
  - exists 0%nat. intros fuel _.
    assert (E : (n <? nbrOfCycles p) = false) by (apply Z.ltb_ge; lia).
    destruct fuel; simpl; rewrite E; reflexivity.
  - assert (E : (n <? nbrOfCycles p) = true) by (apply Z.ltb_lt; lia).
    set (pw' := cycle_end cb (p, w)).
    destruct (IH (n + 1) (fst pw') (snd pw')) as [N HN].
    + exact Hcb.
    + exact Hd.
    + lia.
    + exact Hmax.
    + change (nbrOfCycles (fst pw')) with (nbrOfCycles p). lia.
    + rewrite <- surjective_pairing in HN.
      exists (S (Nat.max N (cycle_fuel cb p w))). intros fuel Hfuel.
      destruct fuel as [| fuel]; [lia |].
      cbn [for_cycles]. rewrite E.
      rewrite (cycle_runs cb) by (assumption || lia).
      cbn [bind]. rewrite to_uint32_small by lia.
      apply HN. lia.
Qed.

(** ** The schedule translator *)

Ltac unfold_translator :=
  unfold setCycleStartStop;
  repeat match goal with
         | |- context [date_to_time ?tz ?td ?s] =>
             destruct (date_to_time tz td s)
         end;
  cbn [tStart tStop tInterval intervalMultiplier tCyclePeriod nbrOfCycles
       tskHandle callback with_tStart with_tStop with_tInterval
       with_tCyclePeriod with_nbrOfCycles].

(** The cycle period and the number of cycles that [setCycleStartStop]
    stores, in terms of the timestamps it stores. *)
Lemma setCycleStartStop_cycles (tz : Libc.TimeZone) (hh0 mm0 : Z)
    (p : TaskParams) (start stop interval : string) :
  let p' := setCycleStartStop tz hh0 mm0 p start stop interval in
  tCyclePeriod p' = 86400 /\
  nbrOfCycles p' = to_uint32 (1 + Z.quot (tStop p' - tStart p') 86400).
Proof. unfold_translator. split; reflexivity. Qed.

(** The interval stored is the one scanned from the interval text. *)
Lemma setCycleStartStop_interval (tz : Libc.TimeZone) (hh0 mm0 : Z)
    (p : TaskParams) (start stop interval : string) :
  tInterval (setCycleStartStop tz hh0 mm0 p start stop interval) =
  scan_interval hh0 mm0 interval.
Proof. unfold_translator. reflexivity. Qed.

(** The other fields do not depend on the interval text, nor on what the
    locals held. *)
Lemma setCycleStartStop_dates (tz : Libc.TimeZone) (hh0 mm0 hh1 mm1 : Z)
    (p : TaskParams) (start stop interval interval1 : string) :
  with_tInterval (setCycleStartStop tz hh0 mm0 p start stop interval) 0 =
  with_tInterval (setCycleStartStop tz hh1 mm1 p start stop interval1) 0.
Proof. unfold_translator. reflexivity. Qed.

(** C4, as stated: the initial multiplier is not 1, so the initial record
    is not the one of the claim. *)
Lemma initial_multiplier_is_not_one :
  _tskParams <> mk_TaskParams 0 0 1 1 86400 1 None None.
Proof. discriminate. Qed.

(** C4, amended: the record of a freshly constructed timer holds start = 0,
    stop = 0, interval = 1, intervalMultiplier = 1000 (one interval unit is
    a second, one delay unit a millisecond), cyclePeriod = 86400,
    cycleCount = 1, no handle and no callback. *)
Theorem initial_tskParams :
  tStart _tskParams = 0 /\ tStop _tskParams = 0 /\
  tInterval _tskParams = 1 /\ intervalMultiplier _tskParams = 1000 /\
  tCyclePeriod _tskParams = 86400 /\ nbrOfCycles _tskParams = 1 /\
  tskHandle _tskParams = None /\ callback _tskParams = None.
Proof. repeat split. Qed.

(** C5, as stated: for a window that closes before it opens the count
    stored is not [1 + floor ((stop - start) / cyclePeriod)], which is 0
    here; 1 is stored. *)
Lemma floor_count_fails_on_reversed_window :
  nbrOfCycles Examples.reversed_window <>
  1 + (tStop Examples.reversed_window - tStart Examples.reversed_window)
      / tCyclePeriod Examples.reversed_window.
Proof. vm_compute. discriminate. Qed.

(** C6, as stated: two texts that do not match their layout, and no error
    in either case.  The interval text ["5"] has no colon: [sscanf]
    converts one value of two, and start, stop, cycle period and cycle
    count are stored as for ["00:05"].  The start text ["2023-06-13"] has
    no time: [sscanf] converts three values of five, hour and minute stay
    at the zero they were initialised with, and the start stored is
    midnight of that day, which makes two cycles of the schedule. *)
Lemma interval_without_colon_is_stored :
  List.length (Libc.sscanf "5" "%d:%d") = 1%nat /\
  with_tInterval Examples.interval_without_colon 0 =
    mk_TaskParams 1686688800 1686716100 0 1000 86400 1 None None /\
  List.length (Libc.sscanf "2023-06-13" "%d-%d-%d %d:%d") = 3%nat /\
  Examples.start_without_time =
    mk_TaskParams 1686607200 1686716100 300 1000 86400 2 None None.
Proof. repeat split; vm_compute; reflexivity. Qed.

(** C9, as stated: with the window closing one day and 27300 seconds
    before it opens, [start - stop >= 86400] and the count stored is 0, not
    a large number. *)
Lemma reversed_by_a_day_stores_zero :
  86400 <= tStart Examples.reversed_by_a_day
           - tStop Examples.reversed_by_a_day /\
  nbrOfCycles Examples.reversed_by_a_day = 0.
Proof. split; vm_compute; congruence. Qed.

Section Translator.

Variables (tz : Libc.TimeZone) (tskHH0 tskMM0 : Z) (p : TaskParams).
Variables (startDateTime stopDateTime taskInterval : string).

Local Notation "'translated'" :=
  (setCycleStartStop tz tskHH0 tskMM0 p startDateTime stopDateTime
     taskInterval).

(** C5, amended: the cycle period stored is 86400 whatever the input.  The
    count stored is [1 + (stop - start) / cyclePeriod] with a division that
    truncates toward zero, taken modulo 2^32.  For timestamps with
    [start <= stop] whose count is below 2^32 this is
    [1 + floor ((stop - start) / cyclePeriod)]; for timestamps with
    [stop < start] it is [1 - floor ((start - stop) / cyclePeriod)]
    modulo 2^32. *)
Theorem setCycleStartStop_count :
  tCyclePeriod
    (setCycleStartStop tz tskHH0 tskMM0 p startDateTime stopDateTime
       taskInterval) = 86400 /\
  nbrOfCycles translated =
    to_uint32
      (1 + Z.quot (tStop translated - tStart translated)
             (tCyclePeriod translated)) /\
  (tStart translated <= tStop translated ->
   1 + (tStop translated - tStart translated) / 86400 < 2 ^ 32 ->
   nbrOfCycles translated =
     1 + (tStop translated - tStart translated) / tCyclePeriod translated) /\
  (tStop translated < tStart translated ->
   nbrOfCycles translated =
     to_uint32
       (1 - (tStart translated - tStop translated)
            / tCyclePeriod translated)).
Proof.
  destruct (setCycleStartStop_cycles tz tskHH0 tskMM0 p startDateTime
              stopDateTime taskInterval) as [HP HN].
  cbv zeta in HP, HN.
  split; [exact HP |]. rewrite HP.
  split; [exact HN |]. split.
  - intros Hle Hfit.
    rewrite HN, Z.quot_div_nonneg by lia.
    apply to_uint32_small.
    pose proof (Z.div_pos (tStop translated - tStart translated) 86400
                  ltac:(lia) ltac:(lia)).
    lia.
  - intros Hlt. rewrite HN. f_equal.
    replace (tStop translated - tStart translated)
      with (- (tStart translated - tStop translated)) by lia.
    rewrite Z.quot_opp_l, Z.quot_div_nonneg by lia. lia.
Qed.

(** A date text that does not match at all leaves the zero-initialised
    [td] as it is, and the start stored is the timestamp of year 0 - 1900,
    month 0 - 1, day 0. *)
Lemma unmatched_start_is_stored :
  Libc.sscanf startDateTime "%d-%d-%d %d:%d" = [] ->
  tStart translated =
  snd (Libc.mktime tz (Libc.mk_tm 0 0 0 0 (-1) (-1900) (-1))).
Proof.
  intros H. unfold setCycleStartStop.
  assert (E : date_to_time tz Libc.tm_zero startDateTime =
              Libc.mktime tz (Libc.mk_tm 0 0 0 0 (-1) (-1900) (-1))).
  { unfold date_to_time, scan_date. rewrite H. reflexivity. }
  rewrite E. destruct (Libc.mktime tz _) as [td1 t1].
  destruct (date_to_time tz td1 stopDateTime). reflexivity.
Qed.

(** A start text that gives the date and no more leaves hour and minute at
    the zero they were initialised with. *)
Lemma date_only_start_is_stored (y mo d : Z) :
  Libc.sscanf startDateTime "%d-%d-%d %d:%d" = [y; mo; d] ->
  tStart translated =
  snd (Libc.mktime tz
         (Libc.mk_tm 0 0 0 d (int_sub mo 1) (int_sub y 1900) (-1))).
Proof.
  intros H. unfold setCycleStartStop.
  assert (E : date_to_time tz Libc.tm_zero startDateTime =
              Libc.mktime tz
                (Libc.mk_tm 0 0 0 d (int_sub mo 1) (int_sub y 1900) (-1))).
  { unfold date_to_time, scan_date. rewrite H. reflexivity. }
  rewrite E. destruct (Libc.mktime tz _) as [td1 t1].
  destruct (date_to_time tz td1 stopDateTime). reflexivity.
Qed.

(** A stop text that does not match at all leaves in [td] what [mktime]
    left there for the start, and the two subtractions are made a second
    time. *)
Lemma unmatched_stop_is_stored :
  Libc.sscanf stopDateTime "%d-%d-%d %d:%d" = [] ->
  tStop translated =
  snd (Libc.mktime tz
         (adjust_date (fst (date_to_time tz Libc.tm_zero startDateTime)))).
Proof.
  intros H. unfold setCycleStartStop.
  destruct (date_to_time tz Libc.tm_zero startDateTime) as [td1 t1].
  cbn [fst].
  assert (E : date_to_time tz td1 stopDateTime =
              Libc.mktime tz (adjust_date td1)).
  { unfold date_to_time, scan_date. rewrite H.
    destruct td1. reflexivity. }
  rewrite E. destruct (Libc.mktime tz _) as [td2 t2]. reflexivity.
Qed.

(** C6, amended: [setCycleStartStop] has no error result and does not look
    at what [sscanf] returns: whatever the three texts are, it stores a
    schedule.  The cycle period is 86400 and the cycle count is computed
    from the two timestamps stored, as for well-formed texts; start, stop,
    cycle period and cycle count do not depend on the interval text.  A
    start text that yields no value leaves the zero-initialised
    [struct tm] as it is, one that yields the date and no more leaves hour
    and minute at zero, and the start stored is the [mktime] of these
    fields after the two subtractions; a stop text that yields no value is
    computed from what [mktime] left in the [struct tm] for the start.
    Nothing is said of the interval stored for an interval text that
    yields fewer than two values: the code computes it from a local it
    never assigned. *)
Theorem malformed_text_is_stored :
  tCyclePeriod translated = 86400 /\
  nbrOfCycles translated =
    to_uint32 (1 + Z.quot (tStop translated - tStart translated) 86400) /\
  (forall hh1 mm1 interval1,
     with_tInterval
       (setCycleStartStop tz tskHH0 tskMM0 p startDateTime stopDateTime
          taskInterval) 0 =
     with_tInterval
       (setCycleStartStop tz hh1 mm1 p startDateTime stopDateTime interval1)
       0) /\
  (Libc.sscanf startDateTime "%d-%d-%d %d:%d" = [] ->
   tStart translated =
   snd (Libc.mktime tz (Libc.mk_tm 0 0 0 0 (-1) (-1900) (-1)))) /\
  (forall y mo d,
     Libc.sscanf startDateTime "%d-%d-%d %d:%d" = [y; mo; d] ->
     tStart translated =
     snd (Libc.mktime tz
            (Libc.mk_tm 0 0 0 d (int_sub mo 1) (int_sub y 1900) (-1)))) /\
  (Libc.sscanf stopDateTime "%d-%d-%d %d:%d" = [] ->
   tStop translated =
   snd (Libc.mktime tz
          (adjust_date (fst (date_to_time tz Libc.tm_zero startDateTime))))).
Proof.
  destruct (setCycleStartStop_cycles tz tskHH0 tskMM0 p startDateTime
              stopDateTime taskInterval) as [HP HN].
  cbv zeta in HP, HN.
  split; [exact HP |]. split; [exact HN |].
  split; [intros; apply setCycleStartStop_dates |].
  split; [exact unmatched_start_is_stored |].
  split; [exact date_only_start_is_stored |].
  exact unmatched_stop_is_stored.
Qed.

(** C9, amended: for timestamps with [stop < start], let [q] be the number
    of whole days in [start - stop].  The count is computed as
    [1 + (stop - start) / 86400] with a division that truncates toward
    zero, that is [1 - q], and stored in 32 bits: 1 is stored when
    [start - stop < 86400], 0 when [86400 <= start - stop < 172800], and
    [2^32 - (q - 1)] when [172800 <= start - stop]. *)
Theorem setCycleStartStop_reversed :
  tStop translated < tStart translated ->
  (tStart translated - tStop translated) / 86400 <= 2 ^ 32 ->
  nbrOfCycles translated =
    to_uint32 (1 + Z.quot (tStop translated - tStart translated) 86400) /\
  nbrOfCycles translated =
    reversed_count ((tStart translated - tStop translated) / 86400).
Proof.
  intros Hlt Hq.
  destruct (setCycleStartStop_cycles tz tskHH0 tskMM0 p startDateTime
              stopDateTime taskInterval) as [_ HN].
  cbv zeta in HN.
  split; [exact HN |]. rewrite HN.
  set (gap := tStart translated - tStop translated) in *.
  replace (tStop translated - tStart translated) with (- gap)
    by (unfold gap; lia).
  rewrite Z.quot_opp_l, Z.quot_div_nonneg by lia.
  set (q := gap / 86400) in *.
  assert (0 <= q) by (apply Z.div_pos; lia).
  unfold to_uint32, reversed_count.
  destruct (q =? 0) eqn:E0; [apply Z.eqb_eq in E0; rewrite E0; reflexivity |].
  destruct (q =? 1) eqn:E1; [apply Z.eqb_eq in E1; rewrite E1; reflexivity |].
  apply Z.eqb_neq in E0, E1.
  replace (1 + - q) with (2 ^ 32 - (q - 1) + (-1) * 2 ^ 32) by lia.
  rewrite Z.mod_add by lia. apply Z.mod_small. lia.
Qed.

End Translator.

Lemma setCycleStartStop_count_witness :
  nbrOfCycles (App.task4 0 0) =
  1 + (tStop (App.task4 0 0) - tStart (App.task4 0 0))
      / tCyclePeriod (App.task4 0 0).
Proof.
  destruct (setCycleStartStop_count App.TIME_ZONE 0 0 _tskParams
              "2023-06-13 22:40" "2023-06-14 06:15" "00:05")
    as (_ & _ & H & _).
  apply H; vm_compute; congruence.
Defined.

Lemma malformed_text_is_stored_witness :
  tStart Examples.start_without_time =
  snd (Libc.mktime App.TIME_ZONE
         (Libc.mk_tm 0 0 0 13 (int_sub 6 1) (int_sub 2023 1900) (-1))).
Proof.
  destruct (malformed_text_is_stored App.TIME_ZONE 0 0 _tskParams
              "2023-06-13" "2023-06-14 06:15" "00:05")
    as (_ & _ & _ & _ & H & _).
  apply (H 2023 6 13). vm_compute. reflexivity.
Defined.

Lemma setCycleStartStop_reversed_witness :
  nbrOfCycles Examples.reversed_by_three_days =
    to_uint32 (1 + Z.quot (tStop Examples.reversed_by_three_days
                           - tStart Examples.reversed_by_three_days) 86400) /\
  nbrOfCycles Examples.reversed_by_three_days = reversed_count 3.
Proof.
  apply (setCycleStartStop_reversed App.TIME_ZONE 0 0 _tskParams
           "2023-06-16 22:40" "2023-06-13 22:40" "00:05");
    vm_compute; congruence.
Defined.

Section TranslatorExample.

Variables (tskHH0 tskMM0 : Z) (p : TaskParams).

Local Notation "'translated'" :=
  (setCycleStartStop App.TIME_ZONE tskHH0 tskMM0 p
     "2023-06-13 22:40" "2023-06-14 06:15" "00:05").

(** C7: the example of the source comment, in the time zone the program
    sets, whatever the timer held before and whatever the locals held:
    the interval stored is 300, the cycle period 86400 and the cycle count
    1; the timestamps are the ones the comment gives. *)
Theorem setCycleStartStop_example :
  tInterval
    (setCycleStartStop App.TIME_ZONE tskHH0 tskMM0 p
       "2023-06-13 22:40" "2023-06-14 06:15" "00:05") = 300 /\
  tCyclePeriod translated = 86400 /\
  nbrOfCycles translated = 1 /\
  tStart translated = 1686688800 /\ tStop translated = 1686716100.
Proof. vm_compute. repeat split. Qed.

End TranslatorExample.

(** ** The task function *)

Lemma calls_cons_time (t : Z) (tr : list Event) :
  calls (EvTime t :: tr) = calls tr.
Proof. reflexivity. Qed.

Lemma calls_cons_delete (h : TaskHandle_t) (tr : list Event) :
  calls (EvDelete h :: tr) = calls tr.
Proof. reflexivity. Qed.

(** A loop that ends has just read a time that is not before its bound. *)
Lemma poll_end_reached (bound d : Z) (evs : list Event) (w : World) :
  0 < d -> bound <= clock_ms (poll_end bound d evs w) / 1000.
Proof.
  intros Hd. unfold poll_end. cbn [clock_ms].
  apply Z.ltb_ge, seconds_reached. unfold polls.
  destruct (Z_le_gt_dec (1000 * bound - clock_ms w) 0) as [L | L].
  - pose proof (cdiv_nonpos _ d Hd L).
    replace (Z.to_nat (cdiv (1000 * bound - clock_ms w) d)) with 0%nat
      by lia.
    lia.
  - pose proof (cdiv_pos (1000 * bound - clock_ms w) d Hd ltac:(lia)).
    pose proof (cdiv_ceiling (1000 * bound - clock_ms w) d Hd).
    rewrite Z2Nat.id by lia. lia.
Qed.

(** The wait phase ends in the second in which the window opens, or in
    the second in which it was entered when the window was open already. *)
Lemma wait_exit_second (p : TaskParams) (c : Z) :
  wait_exit_ms p c / 1000 = Z.max (tStart p) (c / 1000).
Proof.
  unfold wait_exit_ms, polls.
  pose proof (Z.div_mod c 1000 ltac:(lia)) as E.
  pose proof (Z.mod_pos_bound c 1000 ltac:(lia)) as B.
  destruct (Z_le_gt_dec (1000 * tStart p - c) 0) as [L | L].
  - pose proof (cdiv_nonpos _ 10 ltac:(lia) L).
    replace (Z.of_nat (Z.to_nat (cdiv (1000 * tStart p - c) 10))) with 0
      by lia.
    rewrite Z.add_0_r. lia.
  - pose proof (cdiv_pos (1000 * tStart p - c) 10 ltac:(lia) ltac:(lia)).
    pose proof (cdiv_ceiling (1000 * tStart p - c) 10 ltac:(lia)) as [U V].
    rewrite Z2Nat.id by lia.
    rewrite Z.max_l by lia.
    symmetry. apply (Z.div_unique _ 1000 (tStart p)
      (c + cdiv (1000 * tStart p - c) 10 * 10 - 1000 * tStart p)); lia.
Qed.

Lemma calls_cycle_end (cb : Callback) (p : TaskParams) (w : World) :
  calls (trace (snd (cycle_end cb (p, w)))) =
  (calls (trace w)
   + polls (tStop p) (period_ms cb p) (wait_exit_ms p (clock_ms w)))%nat.
Proof.
  unfold cycle_end, poll_end. cbn [snd trace clock_ms].
  rewrite calls_cons_time, calls_poll_trace, !calls_cons_time,
    calls_poll_trace.
  unfold wait_exit_ms.
  change (calls [EvDelay (sleep_ms p); EvCall]) with 1%nat.
  change (calls [EvDelay 10]) with 0%nat.
  lia.
Qed.

(** A cycle ends on a clock reading that is not before the stop time. *)
Lemma cycle_end_exit (cb : Callback) (p : TaskParams) (w : World) :
  0 < period_ms cb p ->
  exists tr,
    trace (snd (cycle_end cb (p, w))) =
      EvTime (clock_ms (snd (cycle_end cb (p, w))) / 1000) :: tr /\
    tStop p <= clock_ms (snd (cycle_end cb (p, w))) / 1000.
Proof.
  intros Hd. unfold cycle_end. cbn [snd].
  eexists. split; [reflexivity |].
  apply poll_end_reached. exact Hd.
Qed.

(** One cycle, whether or not it makes progress: what it leaves unchanged
    and how it moves the stop time. *)
Lemma cycle_keeps (fuel : nat) (p p' : TaskParams) (w w' : World) :
  cycle fuel p w = Ok (p', w') ->
  tStop p' = tStop p + tCyclePeriod p /\
  tCyclePeriod p' = tCyclePeriod p /\
  nbrOfCycles p' = nbrOfCycles p /\
  tskHandle p' = tskHandle p.
Proof.
  unfold cycle. intros H.
  destruct (wait_phase fuel p w) as [w1 | |]; try discriminate.
  cbn [bind] in H. unfold time in H.
  destruct (active_phase fuel _ _) as [w3 | |]; try discriminate.
  cbn [bind] in H. injection H as Hp _. subst p'.
  repeat split.
Qed.

Lemma for_cycles_keeps :
  forall fuel n p w p1 w1,
    for_cycles fuel n p w = Ok (p1, w1) ->
    0 <= n <= nbrOfCycles p -> nbrOfCycles p < 2 ^ 32 ->
    tStop p1 = tStop p + (nbrOfCycles p - n) * tCyclePeriod p /\
    tskHandle p1 = tskHandle p.
Proof.
  induction fuel as [| fuel IH]; intros n p w p1 w1 H Hn Hmax.
  - simpl in H. destruct (n <? nbrOfCycles p) eqn:E; [discriminate |].
    apply Z.ltb_ge in E. injection H as <- _.
    replace (nbrOfCycles p - n) with 0 by lia. split; [lia | reflexivity].
  - simpl in H. destruct (n <? nbrOfCycles p) eqn:E.
    + apply Z.ltb_lt in E.
      destruct (cycle fuel p w) as [[p' w'] | |] eqn:Ec; try discriminate.
      cbn [bind fst snd] in H.
      destruct (cycle_keeps _ _ _ _ _ Ec) as (Hs & Hc & Hk & Hh).
      rewrite to_uint32_small in H by lia.
      apply IH in H; [| lia | lia].
      destruct H as [H1 H2]. rewrite H1, H2, Hs, Hc, Hk, Hh.
      split; [lia | reflexivity].
    + apply Z.ltb_ge in E. injection H as <- _.
      replace (nbrOfCycles p - n) with 0 by lia. split; [lia | reflexivity].
Qed.



(** C10: with [nbrOfCycles = 0] the task function, whatever the fuel, runs
    no cycle: the callback is not invoked, nothing is delayed, the clock is
    not even read, start and stop are left as they are; the task is
    deleted and the handle cleared at once. *)
Theorem taskFunction_without_cycles (fuel : nat) (p : TaskParams)
    (w : World) :
  nbrOfCycles p = 0 ->
  exists p' w',
    _taskFunction fuel p w = Ok (p', w') /\
    p' = with_tskHandle p None /\
    trace w' = EvDelete (tskHandle p) :: trace w /\
    clock_ms w' = clock_ms w /\
    calls (trace w') = calls (trace w) /\
    delays (trace w') = delays (trace w) /\
    tStart p' = tStart p /\ tStop p' = tStop p /\ tskHandle p' = None.
Proof.
  intros HK.
  exists (with_tskHandle p None), (vTaskDelete (tskHandle p) w).
  split; [| repeat split].
  unfold _taskFunction.
  assert (E : for_cycles fuel 0 p w = Ok (p, w)).
  { destruct fuel; simpl; rewrite HK; reflexivity. }
  rewrite E. reflexivity.
Qed.

Lemma taskFunction_without_cycles_witness :
  exists p' w',
    _taskFunction 0 Examples.no_cycle (Examples.world_at 0) = Ok (p', w') /\
    p' = with_tskHandle Examples.no_cycle None /\
    trace w' = [EvDelete (Some 1%positive)] /\
    clock_ms w' = 0 /\
    calls (trace w') = 0%nat /\
    delays (trace w') = 0%nat /\
    tStart p' = 0 /\ tStop p' = 10 /\ tskHandle p' = None.
Proof.
  apply (taskFunction_without_cycles 0 Examples.no_cycle
           (Examples.world_at 0)).
  reflexivity.
Defined.

(** C1, as stated.  In the ten-second window with a two-second interval,
    entered as the window opens, the callback runs 5 times (at 0, 2, 4, 6
    and 8 seconds), which is neither [floor (10 / (1000 * 2)) + 1 = 1] nor
    the 6 of the scenario.  With a multiplier of 1 the delay is two
    milliseconds and the callback runs 5000 times, where the formula gives
    6.  In a window that closes as it opens the callback does not run at
    all, where the formula gives 1. *)
Lemma invocation_count_is_not_floor_plus_one :
  (exists p' w',
     _taskFunction 9 (Examples.ten_second_window 100)
       (Examples.world_at 100000) = Ok (p', w') /\
     calls (trace w') = 5%nat /\
     Z.of_nat (calls (trace w')) <>
       (tStop (Examples.ten_second_window 100)
        - tStart (Examples.ten_second_window 100))
       / (intervalMultiplier (Examples.ten_second_window 100)
          * tInterval (Examples.ten_second_window 100)) + 1 /\
     Z.of_nat (calls (trace w')) <> 6) /\
  (exists p' w',
     _taskFunction (Z.to_nat 5001) (Examples.ten_second_window_x1 100)
       (Examples.world_at 100000) = Ok (p', w') /\
     calls (trace w') = 5000%nat /\
     Z.of_nat (calls (trace w')) <>
       (tStop (Examples.ten_second_window_x1 100)
        - tStart (Examples.ten_second_window_x1 100))
       / (intervalMultiplier (Examples.ten_second_window_x1 100)
          * tInterval (Examples.ten_second_window_x1 100)) + 1) /\
  (exists p' w',
     _taskFunction 9 (Examples.empty_window 100)
       (Examples.world_at 100000) = Ok (p', w') /\
     calls (trace w') = 0%nat /\
     Z.of_nat (calls (trace w')) <>
       (tStop (Examples.empty_window 100)
        - tStart (Examples.empty_window 100))
       / (intervalMultiplier (Examples.empty_window 100)
          * tInterval (Examples.empty_window 100)) + 1).
Proof.
  repeat split; eexists; eexists; (split; [vm_compute; reflexivity |]);
    vm_compute; repeat split; discriminate.
Qed.

(** C1, amended.  For a configuration with [nbrOfCycles = 1] whose callback
    is there and in which an iteration of the active phase takes time (the
    callback's running time plus the delay of
    [intervalMultiplier * tInterval] milliseconds is [d > 0]), the task
    function returns; the callback has been invoked exactly
    [ceil ((1000 * stop - t0) / d)] times, or not at all when
    [1000 * stop <= t0], where [t0] is the clock reading in milliseconds at
    which the wait phase ended: the window is tested before each
    invocation, and there is no invocation on top of these.  The task is
    deleted, and the handle cleared, right after a clock reading with
    [stop <= now]. *)
Theorem single_cycle_invocations (p : TaskParams) (w : World)
    (cb : Callback) :
  nbrOfCycles p = 1 ->
  callback p = Some cb ->
  0 < period_ms cb p ->
  exists fuel w1 p' w',
    wait_phase fuel p w = Ok w1 /\
    _taskFunction fuel p w = Ok (p', w') /\
    Z.of_nat (calls (trace w')) =
      Z.of_nat (calls (trace w))
      + Z.max 0 (cdiv (1000 * tStop p - clock_ms w1) (period_ms cb p)) /\
    (exists now tr,
       trace w' = EvDelete (tskHandle p) :: EvTime now :: tr /\
       tStop p <= now) /\
    tskHandle p' = None /\
    (forall fuel2 r, _taskFunction fuel2 p w = Ok r -> r = (p', w')).
Proof.
  intros HK Hcb Hd.
  destruct (for_cycles_runs cb 1 0 p w Hcb Hd ltac:(lia)
              ltac:(rewrite HK; lia) ltac:(rewrite HK; reflexivity))
    as [N HN].
  set (fuel := Nat.max N (polls (tStart p) 10 (clock_ms w))).
  set (pw := cycle_end cb (p, w)).
  assert (Hrun : _taskFunction fuel p w =
                 Ok (with_tskHandle (fst pw) None,
                     vTaskDelete (tskHandle p) (snd pw))).
  { unfold _taskFunction. rewrite (HN fuel) by (unfold fuel; lia).
    reflexivity. }
  exists fuel, (poll_end (tStart p) 10 [EvDelay 10] w),
    (with_tskHandle (fst pw) None), (vTaskDelete (tskHandle p) (snd pw)).
  split; [apply wait_phase_runs; unfold fuel; lia |].
  split; [exact Hrun |]. split; [| split; [| split]].
  - cbn [vTaskDelete trace]. rewrite calls_cons_delete.
    unfold pw. rewrite calls_cycle_end, Nat2Z.inj_add, polls_iterations.
    reflexivity.
  - destruct (cycle_end_exit cb p w Hd) as (tr & Htr & Hstop).
    exists (clock_ms (snd pw) / 1000), tr.
    cbn [vTaskDelete trace]. fold pw in Htr. rewrite Htr.
    split; [reflexivity | exact Hstop].
  - reflexivity.
  - intros fuel2 r H. exact (taskFunction_deterministic _ _ _ _ _ _ H Hrun).
Qed.

Lemma single_cycle_invocations_witness :
  exists fuel w1 p' w',
    wait_phase fuel (Examples.ten_second_window 100)
      (Examples.world_at 100000) = Ok w1 /\
    _taskFunction fuel (Examples.ten_second_window 100)
      (Examples.world_at 100000) = Ok (p', w') /\
    Z.of_nat (calls (trace w')) =
      0 + Z.max 0 (cdiv (1000 * 110 - clock_ms w1) (0 + 2000)) /\
    (exists now tr,
       trace w' = EvDelete (Some 1%positive) :: EvTime now :: tr /\
       110 <= now) /\
    tskHandle p' = None /\
    (forall fuel2 r,
       _taskFunction fuel2 (Examples.ten_second_window 100)
         (Examples.world_at 100000) = Ok r -> r = (p', w')).
Proof.
  apply (single_cycle_invocations (Examples.ten_second_window 100)
           (Examples.world_at 100000) App.showTime).
  - reflexivity.
  - reflexivity.
  - vm_compute. reflexivity.
Defined.

(** With the initial multiplier of 1000, a callback that takes no time and
    a wait phase that ends exactly as the window opens, the count of C1 is
    [ceil ((stop - start) / interval)]. *)
Lemma whole_second_iterations (start stop interval : Z) :
  0 < interval ->
  Z.max 0 (cdiv (1000 * stop - 1000 * start) (1000 * interval)) =
  Z.max 0 (cdiv (stop - start) interval).
Proof.
  intros Hi. f_equal.
  pose proof (cdiv_ceiling (1000 * stop - 1000 * start) (1000 * interval)
                ltac:(lia)) as [A B].
  pose proof (cdiv_ceiling (stop - start) interval Hi) as [C D].
  nia.
Qed.

(** C2, as stated.  The ten-second window of second 100, entered 1.3
    seconds late: the wait phase ends in second 101, and the next cycle is
    set up with a window of 9 seconds. *)
Lemma late_cycle_narrows_the_window :
  exists p' w',
    cycle 9 (Examples.ten_second_window 100) (Examples.world_at 101300)
      = Ok (p', w') /\
    tStop (Examples.ten_second_window 100)
    - tStart (Examples.ten_second_window 100) = 10 /\
    tStop p' - tStart p' = 9.
Proof.
  eexists. eexists. split; [vm_compute; reflexivity |].
  split; reflexivity.
Qed.

(** C2, amended.  Every cycle whose callback is there and in which an
    iteration of the active phase takes time runs to its end.  Its wait
    phase ends in second [a = max start now], where [now] is the second in
    which the cycle is entered; the next cycle starts at
    [a + cyclePeriod] and stops at [stop + cyclePeriod], the cycle period
    is unchanged.  So the width of the next window is [stop - a]: the
    width of this one when the cycle is entered no later than second
    [start], and [now - start] seconds less when it is entered late. *)
Theorem cycle_advances_window (p : TaskParams) (w : World) (cb : Callback) :
  callback p = Some cb ->
  0 < period_ms cb p ->
  exists fuel w1 p' w',
    wait_phase fuel p w = Ok w1 /\
    clock_ms w1 / 1000 = Z.max (tStart p) (clock_ms w / 1000) /\
    cycle fuel p w = Ok (p', w') /\
    tStart p' = clock_ms w1 / 1000 + tCyclePeriod p /\
    tStop p' = tStop p + tCyclePeriod p /\
    tCyclePeriod p' = tCyclePeriod p /\
    tStop p' - tStart p' =
      (tStop p - tStart p) - Z.max 0 (clock_ms w / 1000 - tStart p).
Proof.
  intros Hcb Hd.
  exists (cycle_fuel cb p w), (poll_end (tStart p) 10 [EvDelay 10] w),
    (fst (cycle_end cb (p, w))), (snd (cycle_end cb (p, w))).
  rewrite <- surjective_pairing.
  split; [apply wait_phase_runs; unfold cycle_fuel; lia |].
  change (clock_ms (poll_end (tStart p) 10 [EvDelay 10] w))
    with (wait_exit_ms p (clock_ms w)).
  split; [apply wait_exit_second |].
  split; [apply (cycle_runs cb); [assumption | assumption | lia] |].
  rewrite cycle_end_params.
  cbn [tStart tStop tCyclePeriod with_tStart with_tStop].
  rewrite wait_exit_second.
  repeat split; lia.
Qed.

Lemma cycle_advances_window_witness :
  exists fuel w1 p' w',
    wait_phase fuel (Examples.ten_second_window 100)
      (Examples.world_at 101300) = Ok w1 /\
    clock_ms w1 / 1000 = Z.max 100 101 /\
    cycle fuel (Examples.ten_second_window 100) (Examples.world_at 101300)
      = Ok (p', w') /\
    tStart p' = clock_ms w1 / 1000 + 86400 /\
    tStop p' = 110 + 86400 /\
    tCyclePeriod p' = 86400 /\
    tStop p' - tStart p' = (110 - 100) - Z.max 0 (101 - 100).
Proof.
  apply (cycle_advances_window (Examples.ten_second_window 100)
           (Examples.world_at 101300) App.showTime).
  - reflexivity.
  - vm_compute. reflexivity.
Defined.

(** All the cycles together: the stop time moves by the cycle period once
    per cycle, however late the cycles were entered. *)
Lemma stop_after_all_cycles (fuel : nat) (p p1 : TaskParams) (w w1 : World) :
  0 <= nbrOfCycles p < 2 ^ 32 ->
  for_cycles fuel 0 p w = Ok (p1, w1) ->
  tStop p1 = tStop p + nbrOfCycles p * tCyclePeriod p.
Proof.
  intros HK H.
  destruct (for_cycles_keeps _ _ _ _ _ _ H ltac:(lia) ltac:(lia)) as [Hs _].
  rewrite Hs. f_equal. lia.
Qed.

(** With an interval of zero the delay of the active phase is zero ticks,
    whatever the multiplier. *)
Lemma sleep_of_zero_interval (p : TaskParams) :
  tInterval p = 0 -> sleep_ms p = 0.
Proof.
  intros H. unfold sleep_ms, pdMS_TO_TICKS. rewrite H, Z.mul_0_r.
  reflexivity.
Qed.

(** C8.  With [tInterval = 0] the delay of the active phase is zero ticks,
    whatever the multiplier.  While the window is open an iteration reads
    the clock, invokes the callback, delays the task by zero ticks and goes
    back to the test of the window: no iteration passes the callback by.
    When the callback takes time the phase runs to its end: there are
    [ceil ((1000 * stop - c) / cb_ms)] iterations, at least one, and as
    many invocations, and the phase ends on a clock reading with
    [stop <= now]. *)
Theorem zero_interval_tight_loop (p : TaskParams) (w : World)
    (cb : Callback) :
  tInterval p = 0 ->
  callback p = Some cb ->
  clock_ms w / 1000 < tStop p ->
  (forall fuel,
     active_phase (S fuel) p w =
     active_phase fuel p
       (mk_World (clock_ms w + cb_ms cb)
          (EvDelay 0 :: EvCall :: EvTime (clock_ms w / 1000) :: trace w))) /\
  (0 < cb_ms cb ->
   exists fuel k w',
     active_phase fuel p w = Ok w' /\
     (1 <= k)%nat /\
     Z.of_nat k = cdiv (1000 * tStop p - clock_ms w) (cb_ms cb) /\
     clock_ms w' = clock_ms w + Z.of_nat k * cb_ms cb /\
     trace w' =
       EvTime (clock_ms w' / 1000)
       :: poll_trace [EvDelay 0; EvCall] (cb_ms cb) k (clock_ms w)
            (trace w) /\
     calls (trace w') = (calls (trace w) + k)%nat /\
     tStop p <= clock_ms w' / 1000).
Proof.
  intros Hi Hcb Hopen.
  pose proof (sleep_of_zero_interval p Hi) as Hs.
  assert (Hper : period_ms cb p = cb_ms cb)
    by (unfold period_ms; rewrite Hs; lia).
  assert (Hbody : forall w0, active_body p w0 =
            Ok (mk_World (clock_ms w0 + cb_ms cb)
                  ([EvDelay 0; EvCall] ++ trace w0))).
  { intros w0. rewrite (active_body_step cb p w0 Hcb), Hper, Hs.
    reflexivity. }
  split.
  - intros fuel. unfold active_phase. cbn [while_time_before].
    unfold time. cbv zeta.
    rewrite (proj2 (Z.ltb_lt _ _) Hopen), Hbody. reflexivity.
  - intros Hd.
    set (k := polls (tStop p) (cb_ms cb) (clock_ms w)).
    assert (Hc : clock_ms w < 1000 * tStop p)
      by (apply seconds_before, Z.ltb_lt; exact Hopen).
    pose proof (cdiv_pos (1000 * tStop p - clock_ms w) (cb_ms cb) Hd
                  ltac:(lia)) as Hk.
    exists k, k, (poll_end (tStop p) (cb_ms cb) [EvDelay 0; EvCall] w).
    split; [| split; [| split; [| split; [| split; [| split]]]]].
    + unfold active_phase.
      apply (while_time_before_end (tStop p) (cb_ms cb) [EvDelay 0; EvCall]
               (active_body p) Hd Hbody k w k eq_refl (le_n k)).
    + unfold k, polls. lia.
    + unfold k, polls. lia.
    + reflexivity.
    + reflexivity.
    + unfold poll_end. cbn [trace]. fold k.
      rewrite calls_cons_time, calls_poll_trace.
      change (calls [EvDelay 0; EvCall]) with 1%nat. lia.
    + apply poll_end_reached. exact Hd.
Qed.

Lemma zero_interval_tight_loop_witness :
  (forall fuel,
     active_phase (S fuel) Examples.zero_interval (Examples.world_at 9975) =
     active_phase fuel Examples.zero_interval
       (mk_World (9975 + 10) [EvDelay 0; EvCall; EvTime 9])) /\
  (0 < 10 ->
   exists fuel k w',
     active_phase fuel Examples.zero_interval (Examples.world_at 9975)
       = Ok w' /\
     (1 <= k)%nat /\
     Z.of_nat k = cdiv (1000 * 10 - 9975) 10 /\
     clock_ms w' = 9975 + Z.of_nat k * 10 /\
     trace w' =
       EvTime (clock_ms w' / 1000)
       :: poll_trace [EvDelay 0; EvCall] 10 k 9975 [] /\
     calls (trace w') = (0 + k)%nat /\
     10 <= clock_ms w' / 1000).
Proof.
  apply (zero_interval_tight_loop Examples.zero_interval
           (Examples.world_at 9975) App.blinkLed).
  - reflexivity.
  - reflexivity.
  - reflexivity.
Defined.

(** The comment of [initTask3] holds on the model: four signals fit in each
    of the three windows, twelve signals are emitted in all. *)
Lemma task3_emits_twelve_signals :
  Examples.summary
    (p <- App.initTask3 100 1 ;;
     _taskFunction (Z.to_nat 7000) p (Examples.world_at 100000))
  = Some (12%nat, None).
Proof. vm_compute. reflexivity. Qed.

(** * Further properties of the task function *)

Lemma blocks_app (evs : list Event) (a b : list Z) :
  blocks evs (a ++ b) = blocks evs a ++ blocks evs b.
Proof.
  induction a as [| t a IH]; simpl; [reflexivity |].
  rewrite IH, <- app_assoc. reflexivity.
Qed.

Lemma calls_blocks_wait (ts : list Z) : calls (blocks [EvDelay 10] ts) = 0%nat.
Proof. induction ts as [| t ts IH]; simpl; [reflexivity | exact IH]. Qed.

Lemma calls_guarded_blocks (stop s : Z) (ts : list Z) :
  Forall (fun t => t < stop) ts ->
  calls_guarded stop (blocks [EvDelay s; EvCall] ts) = true.
Proof.
  induction 1 as [| t ts Ht _ IH]; simpl; [reflexivity |].
  rewrite IH, (proj2 (Z.ltb_lt t stop) Ht). reflexivity.
Qed.

(** What a loop that ends has left in the trace, whether or not its
    iterations take time. *)
Lemma while_time_before_trace (bound : Z) (body : World -> result World)
    (evs : list Event) :
  (forall w0 w2, body w0 = Ok w2 -> trace w2 = evs ++ trace w0) ->
  forall fuel w w',
    while_time_before bound body fuel w = Ok w' ->
    exists ts,
      trace w' = EvTime (clock_ms w' / 1000) :: blocks evs ts ++ trace w /\
      Forall (fun t => t < bound) ts /\
      bound <= clock_ms w' / 1000.
Proof.
  intros Hbody.
  assert (Hexit : forall w w',
            (clock_ms w / 1000 <? bound) = false ->
            Ok (mk_World (clock_ms w) (EvTime (clock_ms w / 1000) :: trace w))
              = Ok w' ->
            exists ts,
              trace w' =
                EvTime (clock_ms w' / 1000) :: blocks evs ts ++ trace w /\
              Forall (fun t => t < bound) ts /\
              bound <= clock_ms w' / 1000).
  { intros w w' E H. injection H as <-. exists []. cbn [clock_ms trace].
    split; [reflexivity |]. split; [constructor | apply Z.ltb_ge, E]. }
  induction fuel as [| fuel IH]; intros w w' H; simpl in H;
    destruct (clock_ms w / 1000 <? bound) eqn:E;
    try discriminate; try (apply (Hexit w w' E H)).
  destruct (body _) as [w2 | |] eqn:Eb; try discriminate.
  cbn [bind] in H. apply Hbody in Eb. cbn [trace] in Eb.
  destruct (IH _ _ H) as (ts & Htr & Hts & Hend).
  exists (ts ++ [clock_ms w / 1000]).
  split; [| split].
  - rewrite Htr, Eb, blocks_app. cbn [blocks].
    rewrite <- !app_assoc. reflexivity.
  - apply Forall_app. split; [exact Hts |].
    constructor; [apply Z.ltb_lt, E | constructor].
  - exact Hend.
Qed.

Lemma wait_body_trace (w0 w2 : World) :
  wait_body w0 = Ok w2 -> trace w2 = [EvDelay 10] ++ trace w0.
Proof. intros H. injection H as <-. reflexivity. Qed.

Lemma active_body_trace (p : TaskParams) (w0 w2 : World) :
  active_body p w0 = Ok w2 ->
  trace w2 = [EvDelay (sleep_ms p); EvCall] ++ trace w0.
Proof.
  unfold active_body, call. destruct (callback p); [| discriminate].
  intros H. injection H as <-. reflexivity.
Qed.

(** In a cycle that runs to its end the callback is invoked only inside
    the window: nothing is invoked during the wait phase, which ends on a
    clock reading [a] with [start <= a]; [a] is read once more and becomes
    the start of the cycle; and every invocation after that comes right
    after a clock reading below [stop].  This holds for every fuel, every
    callback and every interval. *)
Theorem cycle_calls_inside_window (fuel : nat) (p p' : TaskParams)
    (w w' : World) :
  cycle fuel p w = Ok (p', w') ->
  exists act idle a,
    trace w' = act ++ EvTime a :: EvTime a :: idle ++ trace w /\
    calls idle = 0%nat /\
    tStart p <= a /\
    tStart p' = a + tCyclePeriod p /\
    calls_guarded (tStop p) act = true.
Proof.
  unfold cycle. intros H.
  destruct (wait_phase fuel p w) as [w1 | |] eqn:E1; try discriminate.
  cbn [bind] in H. unfold time in H.
  destruct (active_phase fuel _ _) as [w3 | |] eqn:E3; try discriminate.
  cbn [bind] in H. injection H as <- <-.
  destruct (while_time_before_trace _ _ _ wait_body_trace _ _ _ E1)
    as (tsw & Hw & _ & Hstart).
  destruct (while_time_before_trace _ _ _
              (active_body_trace (with_tStart p (clock_ms w1 / 1000)))
              _ _ _ E3) as (tsa & Ha & Hlt & _).
  cbn [trace tStop with_tStart] in Ha.
  exists (EvTime (clock_ms w3 / 1000)
          :: blocks [EvDelay (sleep_ms p); EvCall] tsa),
    (blocks [EvDelay 10] tsw), (clock_ms w1 / 1000).
  split; [| split; [| split; [| split]]].
  - rewrite Ha, Hw. cbn [app]. reflexivity.
  - apply calls_blocks_wait.
  - exact Hstart.
  - reflexivity.
  - cbn [calls_guarded]. apply calls_guarded_blocks. exact Hlt.
Qed.

Lemma cycle_calls_inside_window_witness :
  exists p' w',
    cycle 9 (Examples.ten_second_window 100) (Examples.world_at 99990)
      = Ok (p', w') /\
    exists act idle a,
      trace w' = act ++ EvTime a :: EvTime a :: idle ++ [] /\
      calls idle = 0%nat /\
      100 <= a /\
      tStart p' = a + 86400 /\
      calls_guarded 110 act = true.
Proof.
  eexists. eexists. split; [vm_compute; reflexivity |].
  apply (cycle_calls_inside_window 9 (Examples.ten_second_window 100)
           _ (Examples.world_at 99990)).
  vm_compute. reflexivity.
Defined.

(** A loop whose window is closed when it is reached does not run its
    body. *)
Lemma while_time_before_closed (bound : Z) (body : World -> result World)
    (fuel : nat) (w : World) :
  bound <= clock_ms w / 1000 ->
  while_time_before bound body fuel w =
  Ok (mk_World (clock_ms w) (EvTime (clock_ms w / 1000) :: trace w)).
Proof.
  intros H. apply Z.ltb_ge in H.
  destruct fuel; simpl; rewrite H; reflexivity.
Qed.

(** The wait phase entered before the start time wakes up in time: it
    ends in the second [start], less than 10 milliseconds after that
    second began, after a whole number of delays of 10 ticks and without
    invoking the callback. *)
Theorem wait_phase_wakes_in_time (p : TaskParams) (w : World) :
  clock_ms w < 1000 * tStart p ->
  exists fuel w1,
    wait_phase fuel p w = Ok w1 /\
    1000 * tStart p <= clock_ms w1 < 1000 * tStart p + 10 /\
    clock_ms w1 / 1000 = tStart p /\
    (clock_ms w1 - clock_ms w) mod 10 = 0 /\
    calls (trace w1) = calls (trace w).
Proof.
  intros Hc.
  exists (polls (tStart p) 10 (clock_ms w)),
    (poll_end (tStart p) 10 [EvDelay 10] w).
  split; [apply wait_phase_runs; lia |].
  pose proof (cdiv_pos (1000 * tStart p - clock_ms w) 10 ltac:(lia)
                ltac:(lia)) as Hk.
  pose proof (cdiv_ceiling (1000 * tStart p - clock_ms w) 10 ltac:(lia))
    as [U V].
  assert (Hclock : clock_ms (poll_end (tStart p) 10 [EvDelay 10] w) =
                   clock_ms w + cdiv (1000 * tStart p - clock_ms w) 10 * 10).
  { unfold poll_end, polls. cbn [clock_ms]. rewrite Z2Nat.id by lia.
    reflexivity. }
  rewrite Hclock.
  split; [lia |]. split; [| split].
  - symmetry. apply (Z.div_unique _ 1000 (tStart p)
      (clock_ms w + cdiv (1000 * tStart p - clock_ms w) 10 * 10
       - 1000 * tStart p)); lia.
  - replace (clock_ms w + cdiv (1000 * tStart p - clock_ms w) 10 * 10
             - clock_ms w)
      with (cdiv (1000 * tStart p - clock_ms w) 10 * 10) by lia.
    apply Z.mod_mul. lia.
  - unfold poll_end. cbn [trace].
    rewrite calls_cons_time, calls_poll_trace.
    change (calls [EvDelay 10]) with 0%nat. lia.
Qed.

Lemma wait_phase_wakes_in_time_witness :
  exists fuel w1,
    wait_phase fuel (Examples.ten_second_window 100)
      (Examples.world_at 99973) = Ok w1 /\
    1000 * 100 <= clock_ms w1 < 1000 * 100 + 10 /\
    clock_ms w1 / 1000 = 100 /\
    (clock_ms w1 - 99973) mod 10 = 0 /\
    calls (trace w1) = 0%nat.
Proof.
  apply (wait_phase_wakes_in_time (Examples.ten_second_window 100)
           (Examples.world_at 99973)).
  reflexivity.
Defined.

(** The active phase entered with the window open overruns the stop time
    by less than one period: it ends on the first multiple of the period
    that reaches the stop time, the callback has been invoked at least
    once, and the phase has lasted one period per invocation. *)
Theorem active_phase_overrun (p : TaskParams) (w : World) (cb : Callback) :
  callback p = Some cb ->
  0 < period_ms cb p ->
  clock_ms w < 1000 * tStop p ->
  exists fuel w',
    active_phase fuel p w = Ok w' /\
    1000 * tStop p <= clock_ms w' < 1000 * tStop p + period_ms cb p /\
    (calls (trace w) < calls (trace w'))%nat /\
    clock_ms w' =
      clock_ms w
      + (Z.of_nat (calls (trace w')) - Z.of_nat (calls (trace w)))
        * period_ms cb p.
Proof.
  intros Hcb Hd Hc.
  set (d := period_ms cb p) in *.
  set (k := polls (tStop p) d (clock_ms w)).
  exists k, (poll_end (tStop p) d [EvDelay (sleep_ms p); EvCall] w).
  split.
  { unfold active_phase.
    apply (while_time_before_end (tStop p) d [EvDelay (sleep_ms p); EvCall]
             (active_body p) Hd (fun w0 => active_body_step cb p w0 Hcb)
             k w k eq_refl (le_n k)). }
  pose proof (cdiv_pos (1000 * tStop p - clock_ms w) d Hd ltac:(lia)) as Hk.
  pose proof (cdiv_ceiling (1000 * tStop p - clock_ms w) d Hd) as [U V].
  assert (Hkz : Z.of_nat k = cdiv (1000 * tStop p - clock_ms w) d)
    by (unfold k, polls; lia).
  assert (Hcalls : calls (trace (poll_end (tStop p) d
                            [EvDelay (sleep_ms p); EvCall] w)) =
                   (calls (trace w) + k)%nat).
  { unfold poll_end. cbn [trace]. fold k.
    rewrite calls_cons_time, calls_poll_trace.
    change (calls [EvDelay (sleep_ms p); EvCall]) with 1%nat. lia. }
  rewrite Hcalls. unfold poll_end. cbn [clock_ms]. fold k. rewrite Hkz.
  split; [lia |]. split; [lia |].
  rewrite Nat2Z.inj_add, Hkz. f_equal. f_equal. lia.
Qed.

Lemma active_phase_overrun_witness :
  exists fuel w',
    active_phase fuel (Examples.ten_second_window 100)
      (Examples.world_at 101300) = Ok w' /\
    1000 * 110 <= clock_ms w' < 1000 * 110 + (0 + 2000) /\
    (0 < calls (trace w'))%nat /\
    clock_ms w' = 101300 + (Z.of_nat (calls (trace w')) - 0) * (0 + 2000).
Proof.
  apply (active_phase_overrun (Examples.ten_second_window 100)
           (Examples.world_at 101300) App.showTime).
  - reflexivity.
  - reflexivity.
  - reflexivity.
Defined.

(** A cycle whose window is closed already when its wait phase ends (the
    stop time is not after the start time, or not after the time at which
    the cycle is entered) goes by without an invocation, whatever the
    callback, a null pointer included; the window is moved on as
    usual. *)
Theorem closed_window_cycle (p : TaskParams) (w : World) :
  tStop p <= Z.max (tStart p) (clock_ms w / 1000) ->
  exists fuel p' w',
    cycle fuel p w = Ok (p', w') /\
    calls (trace w') = calls (trace w) /\
    tStart p' = Z.max (tStart p) (clock_ms w / 1000) + tCyclePeriod p /\
    tStop p' = tStop p + tCyclePeriod p.
Proof.
  intros Hclosed.
  set (fuel := polls (tStart p) 10 (clock_ms w)).
  set (w1 := poll_end (tStart p) 10 [EvDelay 10] w).
  assert (Ha : clock_ms w1 / 1000 = Z.max (tStart p) (clock_ms w / 1000))
    by apply wait_exit_second.
  assert (Hrun : cycle fuel p w =
            Ok (with_tStop
                  (with_tStart p (clock_ms w1 / 1000 + tCyclePeriod p))
                  (tStop p + tCyclePeriod p),
                mk_World (clock_ms w1)
                  (EvTime (clock_ms w1 / 1000)
                   :: EvTime (clock_ms w1 / 1000) :: trace w1))).
  { unfold cycle. rewrite wait_phase_runs by (unfold fuel; lia).
    cbn [bind]. unfold time. fold w1. cbv zeta beta iota.
    unfold active_phase.
    rewrite while_time_before_closed
      by (cbn [clock_ms tStop with_tStart]; lia).
    reflexivity. }
  eexists. eexists. eexists. split; [exact Hrun |].
  cbn [trace tStart tStop with_tStart with_tStop]. rewrite Ha.
  split; [| split; reflexivity].
  unfold w1, poll_end. cbn [trace].
  rewrite !calls_cons_time, calls_poll_trace.
  change (calls [EvDelay 10]) with 0%nat. lia.
Qed.

Lemma closed_window_cycle_witness :
  exists fuel p' w',
    cycle fuel (with_callback Examples.reversed_window None)
      (Examples.world_at 0) = Ok (p', w') /\
    calls (trace w') = 0%nat /\
    tStart p' = Z.max 1686716100 0 + 86400 /\
    tStop p' = 1686688800 + 86400.
Proof.
  apply (closed_window_cycle (with_callback Examples.reversed_window None)
           (Examples.world_at 0)).
  vm_compute. congruence.
Defined.

(** A timer without a callback whose first window is open when the wait
    phase ends jumps through the null pointer: with enough fuel the task
    function faults, and with no fuel does it return. *)
Theorem null_callback_faults (p : TaskParams) (w : World) :
  callback p = None ->
  0 < nbrOfCycles p ->
  Z.max (tStart p) (clock_ms w / 1000) < tStop p ->
  exists N,
    (forall k, _taskFunction (N + k) p w = Fault) /\
    (forall fuel r, _taskFunction fuel p w <> Ok r).
Proof.
  intros Hcb HK Hopen.
  set (n := polls (tStart p) 10 (clock_ms w)).
  set (w1 := poll_end (tStart p) 10 [EvDelay 10] w).
  assert (Ha : clock_ms w1 / 1000 = Z.max (tStart p) (clock_ms w / 1000))
    by apply wait_exit_second.
  assert (Hw : forall f, (n <= f)%nat -> wait_phase f p w = Ok w1)
    by (intros f Hf; apply wait_phase_runs; exact Hf).
  clearbody w1.
  assert (Hlt : (clock_ms w1 / 1000 <? tStop p) = true)
    by (apply Z.ltb_lt; rewrite Ha; exact Hopen).
  assert (Hfault : forall k, _taskFunction (S (S n) + k) p w = Fault).
  { intros k. unfold _taskFunction.
    change (S (S n) + k)%nat with (S (S (n + k))).
    cbn [for_cycles]. rewrite (proj2 (Z.ltb_lt 0 (nbrOfCycles p)) HK).
    unfold cycle. rewrite Hw by lia.
    cbn [bind]. unfold time. cbv zeta beta iota.
    unfold active_phase. cbn [while_time_before]. unfold time.
    cbv zeta beta iota. cbn [clock_ms tStop with_tStart].
    rewrite Hlt.
    unfold active_body. cbn [callback with_tStart]. rewrite Hcb.
    reflexivity. }
  exists (S (S n)). split; [exact Hfault |].
  intros fuel r H.
  pose proof (taskFunction_mono _ _ _ _ H (S (S n) + fuel)%nat ltac:(lia))
    as H'.
  rewrite Hfault in H'. discriminate.
Qed.

Lemma null_callback_faults_witness :
  exists N,
    (forall k,
       _taskFunction (N + k)
         (with_callback (Examples.ten_second_window 100) None)
         (Examples.world_at 100000) = Fault) /\
    (forall fuel r,
       _taskFunction fuel
         (with_callback (Examples.ten_second_window 100) None)
         (Examples.world_at 100000) <> Ok r).
Proof.
  apply (null_callback_faults
           (with_callback (Examples.ten_second_window 100) None)
           (Examples.world_at 100000)).
  - reflexivity.
  - reflexivity.
  - reflexivity.
Defined.

(** After the task function has returned, the timer holds no handle, and
    [deleteTask] hands the null handle to [vTaskDelete]: it asks the host
    to delete a task once more, and leaves the timer as it is. *)
Theorem deleteTask_after_the_task_has_ended (fuel : nat)
    (p p' : TaskParams) (w w' : World) :
  _taskFunction fuel p w = Ok (p', w') ->
  getTaskHandle p' = None /\
  deleteTask p' w' =
    (p', mk_World (clock_ms w') (EvDelete None :: trace w')) /\
  exists h tr, trace w' = EvDelete h :: tr.
Proof.
  unfold _taskFunction. intros H.
  destruct (for_cycles fuel 0 p w) as [[p1 w1] | |]; try discriminate.
  cbn [bind fst snd] in H. injection H as <- <-.
  split; [reflexivity |]. split; [reflexivity |].
  eexists. eexists. reflexivity.
Qed.

Lemma deleteTask_after_the_task_has_ended_witness :
  exists p' w',
    _taskFunction 9 (Examples.ten_second_window 100)
      (Examples.world_at 100000) = Ok (p', w') /\
    getTaskHandle p' = None /\
    deleteTask p' w' =
      (p', mk_World (clock_ms w') (EvDelete None :: trace w')) /\
    exists h tr, trace w' = EvDelete h :: tr.
Proof.
  eexists. eexists. split; [vm_compute; reflexivity |].
  apply (deleteTask_after_the_task_has_ended 9
           (Examples.ten_second_window 100) _ (Examples.world_at 100000)).
  vm_compute. reflexivity.
Defined.

(** ** Schedules on the grid of the wait phase *)

Lemma cdiv_exact (x : Z) : x mod 10 = 0 -> cdiv x 10 * 10 = x.
Proof.
  intros H. pose proof (Z.div_mod x 10 ltac:(lia)) as E. rewrite H in E.
  unfold cdiv.
  rewrite <- (Z.div_unique (x + 10 - 1) 10 (x / 10) 9); lia.
Qed.

Lemma cdiv_nonneg (x d : Z) : 0 < d -> 0 <= x -> 0 <= cdiv x d.
Proof. intros Hd Hx. unfold cdiv. apply Z.div_pos; lia. Qed.

Lemma sub_on_grid (a c : Z) : c mod 10 = 0 -> (1000 * a - c) mod 10 = 0.
Proof.
  intros H. pose proof (Z.div_mod c 10 ltac:(lia)) as E. rewrite H in E.
  replace (1000 * a - c) with ((100 * a - c / 10) * 10) by lia.
  apply Z.mod_mul. lia.
Qed.

(** On the grid the wait phase ends exactly as the window opens. *)
Lemma wait_exit_on_grid (p : TaskParams) (c : Z) :
  c mod 10 = 0 -> c <= 1000 * tStart p ->
  wait_exit_ms p c = 1000 * tStart p.
Proof.
  intros Hg Hc. unfold wait_exit_ms, polls.
  pose proof (cdiv_exact _ (sub_on_grid (tStart p) c Hg)) as E.
  pose proof (cdiv_nonneg (1000 * tStart p - c) 10 ltac:(lia) ltac:(lia)).
  rewrite Z2Nat.id by lia. lia.
Qed.

Section OnGrid.

Variable cb : Callback.

(** One cycle on the grid: the window moves by the cycle period, the
    callback is invoked [ceil (1000 * (stop - start) / period)] times, and
    the next cycle is on the grid again. *)
Lemma cycle_on_grid (p : TaskParams) (w : World) :
  on_grid cb p w ->
  let k := cdiv (1000 * (tStop p - tStart p)) (period_ms cb p) in
  tStart (fst (cycle_end cb (p, w))) = tStart p + tCyclePeriod p /\
  tStop (fst (cycle_end cb (p, w))) = tStop p + tCyclePeriod p /\
  calls (trace (snd (cycle_end cb (p, w)))) =
    (calls (trace w) + Z.to_nat k)%nat /\
  on_grid cb (fst (cycle_end cb (p, w))) (snd (cycle_end cb (p, w))).
Proof.
  intros (Hd & Hdg & Hg & Hc & Hw & Hfit) k.
  pose proof (wait_exit_on_grid p (clock_ms w) Hg Hc) as Ht0.
  pose proof (cdiv_nonneg (1000 * (tStop p - tStart p)) (period_ms cb p)
                Hd ltac:(lia)) as Hk. fold k in Hk, Hfit.
  assert (Hq : wait_exit_ms p (clock_ms w) / 1000 = tStart p).
  { rewrite Ht0, Z.mul_comm. apply Z.div_mul. lia. }
  assert (Hpolls : polls (tStop p) (period_ms cb p)
                     (wait_exit_ms p (clock_ms w)) = Z.to_nat k).
  { unfold polls, k. rewrite Ht0. f_equal. f_equal. lia. }
  assert (Hclock : clock_ms (snd (cycle_end cb (p, w))) =
                   1000 * tStart p + k * period_ms cb p).
  { change (clock_ms (snd (cycle_end cb (p, w))))
      with (wait_exit_ms p (clock_ms w)
            + Z.of_nat (polls (tStop p) (period_ms cb p)
                          (wait_exit_ms p (clock_ms w)))
              * period_ms cb p).
    rewrite Hpolls, Ht0, Z2Nat.id by lia. reflexivity. }
  rewrite cycle_end_params.
  cbn [tStart tStop with_tStart with_tStop]. rewrite Hq.
  split; [reflexivity |]. split; [reflexivity |].
  split; [rewrite calls_cycle_end, Hpolls; reflexivity |].
  unfold on_grid. rewrite Hclock.
  cbn [tStart tStop tCyclePeriod with_tStart with_tStop].
  change (period_ms cb _) with (period_ms cb p).
  replace (tStop p + tCyclePeriod p - (tStart p + tCyclePeriod p))
    with (tStop p - tStart p) by lia.
  fold k.
  repeat split; try assumption; try lia.
  pose proof (Z.div_mod (period_ms cb p) 10 ltac:(lia)) as E.
  rewrite Hdg in E.
  replace (1000 * tStart p + k * period_ms cb p)
    with ((100 * tStart p + k * (period_ms cb p / 10)) * 10) by nia.
  apply Z.mod_mul. lia.
Qed.

(** All the cycles on the grid. *)
Lemma cycles_on_grid :
  forall n p w,
    on_grid cb p w ->
    let k := cdiv (1000 * (tStop p - tStart p)) (period_ms cb p) in
    tStart (fst (cycles_end cb n (p, w))) =
      tStart p + Z.of_nat n * tCyclePeriod p /\
    tStop (fst (cycles_end cb n (p, w))) =
      tStop p + Z.of_nat n * tCyclePeriod p /\
    calls (trace (snd (cycles_end cb n (p, w)))) =
      (calls (trace w) + n * Z.to_nat k)%nat.
Proof.
  induction n as [| n IH]; intros p w Hgrid k.
  - cbn [cycles_end fst snd]. repeat split; lia.
  - destruct (cycle_on_grid p w Hgrid) as (Hs & Ht & Hc & Hnext).
    cbn [cycles_end].
    rewrite (surjective_pairing (cycle_end cb (p, w))).
    destruct (IH _ _ Hnext) as (Hs' & Ht' & Hc').
    rewrite Hs', Ht', Hc', Hs, Ht, Hc.
    change (tCyclePeriod (fst (cycle_end cb (p, w)))) with (tCyclePeriod p).
    change (period_ms cb (fst (cycle_end cb (p, w))))
      with (period_ms cb p).
    replace (tStop p + tCyclePeriod p - (tStart p + tCyclePeriod p))
      with (tStop p - tStart p) by lia.
    fold k. repeat split; lia.
Qed.

End OnGrid.

(** A schedule on the grid runs to its end, every cycle as the first: with
    [k = ceil (1000 * (stop - start) / period)] invocations in a window,
    the callback has been invoked [nbrOfCycles * k] times in all, start
    and stop have moved by [nbrOfCycles] cycle periods, and the handle is
    cleared. *)
Theorem schedule_on_grid (p : TaskParams) (w : World) (cb : Callback) :
  callback p = Some cb ->
  0 <= nbrOfCycles p < 2 ^ 32 ->
  0 < period_ms cb p ->
  period_ms cb p mod 10 = 0 ->
  clock_ms w mod 10 = 0 ->
  clock_ms w <= 1000 * tStart p ->
  tStart p <= tStop p ->
  cdiv (1000 * (tStop p - tStart p)) (period_ms cb p) * period_ms cb p
    <= 1000 * tCyclePeriod p ->
  exists fuel p' w',
    _taskFunction fuel p w = Ok (p', w') /\
    Z.of_nat (calls (trace w')) =
      Z.of_nat (calls (trace w))
      + nbrOfCycles p
        * cdiv (1000 * (tStop p - tStart p)) (period_ms cb p) /\
    tStart p' = tStart p + nbrOfCycles p * tCyclePeriod p /\
    tStop p' = tStop p + nbrOfCycles p * tCyclePeriod p /\
    tskHandle p' = None.
Proof.
  intros Hcb HK Hd Hdg Hg Hc Hw Hfit.
  assert (Hgrid : on_grid cb p w) by (unfold on_grid; auto 10).
  destruct (for_cycles_runs cb (Z.to_nat (nbrOfCycles p)) 0 p w Hcb Hd
              ltac:(lia) ltac:(lia) ltac:(lia)) as [N HN].
  destruct (cycles_on_grid cb (Z.to_nat (nbrOfCycles p)) p w Hgrid)
    as (Hs & Ht & Hcalls).
  set (r := cycles_end cb (Z.to_nat (nbrOfCycles p)) (p, w)) in *.
  exists N, (with_tskHandle (fst r) None),
    (vTaskDelete (tskHandle (fst r)) (snd r)).
  split.
  { unfold _taskFunction. rewrite (HN N (le_n N)). reflexivity. }
  pose proof (cdiv_nonneg (1000 * (tStop p - tStart p)) (period_ms cb p)
                Hd ltac:(lia)) as Hk.
  cbn [vTaskDelete trace tStart tStop tskHandle with_tskHandle].
  rewrite calls_cons_delete, Hcalls, Hs, Ht.
  rewrite Nat2Z.inj_add, Nat2Z.inj_mul, !Z2Nat.id by lia.
  repeat split.
Qed.

Lemma schedule_on_grid_witness :
  exists fuel p' w',
    _taskFunction fuel (task3_schedule 100 1) (Examples.world_at 99990)
      = Ok (p', w') /\
    Z.of_nat (calls (trace w')) = 0 + 3 * 4 /\
    tStart p' = 100 + 3 * 120 /\
    tStop p' = 150 + 3 * 120 /\
    tskHandle p' = None.
Proof.
  apply (schedule_on_grid (task3_schedule 100 1) (Examples.world_at 99990)
           App.flashSOS).
  - reflexivity.
  - vm_compute. split; congruence.
  - reflexivity.
  - reflexivity.
  - reflexivity.
  - vm_compute. congruence.
  - vm_compute. congruence.
  - vm_compute. congruence.
Defined.

(** * Further properties of the translator *)

Ltac digit_cases d H :=
  let D := fresh in
  assert (D : d = 0 \/ d = 1 \/ d = 2 \/ d = 3 \/ d = 4 \/
              d = 5 \/ d = 6 \/ d = 7 \/ d = 8 \/ d = 9)
    by (unfold Text.is_digit in H; lia);
  repeat (destruct D as [D | D]; [subst d; reflexivity |]);
  subst d; reflexivity.

Lemma isdigit_digit_char (d : Z) :
  Text.is_digit d -> Libc.isdigit (Text.digit_char d) = true.
Proof. intros H. digit_cases d H. Qed.

Lemma digit_value_digit_char (d : Z) :
  Text.is_digit d -> Libc.digit_value (Text.digit_char d) = d.
Proof. intros H. digit_cases d H. Qed.

Lemma isspace_digit_char (d : Z) :
  Text.is_digit d -> Libc.isspace (Text.digit_char d) = false.
Proof. intros H. digit_cases d H. Qed.

Lemma minus_digit_char (d : Z) :
  Text.is_digit d -> (Text.digit_char d =? "-")%char = false.
Proof. intros H. digit_cases d H. Qed.

Lemma plus_digit_char (d : Z) :
  Text.is_digit d -> (Text.digit_char d =? "+")%char = false.
Proof. intros H. digit_cases d H. Qed.

(** [scan_digits] reads a run of digits to its end and stops at what
    follows. *)
Lemma scan_digits_text (ds : list Z) :
  Forall Text.is_digit ds ->
  forall acc rest,
    Libc.starts_with_digit rest = false ->
    Libc.scan_digits acc (Text.number_text ds ++ rest) =
    (fold_left (fun a d => 10 * a + d) ds acc, rest).
Proof.
  induction 1 as [| d ds Hd _ IH]; intros acc rest Hrest.
  - destruct rest as [| c r]; simpl in *; [reflexivity |].
    rewrite Hrest. reflexivity.
  - simpl. rewrite (isdigit_digit_char d Hd), (digit_value_digit_char d Hd).
    apply IH. exact Hrest.
Qed.

(** ** Arithmetic on [int] *)

Lemma to_int_small (z : Z) : - 2 ^ 31 <= z < 2 ^ 31 -> to_int z = z.
Proof.
  intros H. unfold to_int. rewrite Z.mod_small; lia.
Qed.

Lemma to_int_range (z : Z) : - 2 ^ 31 <= to_int z < 2 ^ 31.
Proof.
  unfold to_int.
  pose proof (Z.mod_pos_bound (z + 2 ^ 31) (2 ^ 32) ltac:(lia)). lia.
Qed.

Lemma to_int_mod (z : Z) : to_int z mod 2 ^ 32 = z mod 2 ^ 32.
Proof.
  unfold to_int. rewrite Zminus_mod_idemp_l. f_equal. lia.
Qed.

Lemma to_int_congr (a b : Z) :
  a mod 2 ^ 32 = b mod 2 ^ 32 -> to_int a = to_int b.
Proof.
  intros H. unfold to_int.
  rewrite (Z.add_mod a), (Z.add_mod b), H by lia. reflexivity.
Qed.

(** The interval computed in [int] is the [int] of the interval. *)
Lemma int_interval (hh mm : Z) :
  int_mul 60 (int_add (int_mul 60 hh) mm) = to_int (60 * (60 * hh + mm)).
Proof.
  unfold int_mul, int_add. apply to_int_congr.
  rewrite Z.mul_mod, to_int_mod by lia.
  rewrite Z.add_mod, to_int_mod by lia.
  rewrite <- Z.add_mod, <- Z.mul_mod by lia. reflexivity.
Qed.

Lemma fold_digits_nonneg (ds : list Z) :
  Forall Text.is_digit ds ->
  forall acc, 0 <= acc -> 0 <= fold_left (fun a d => 10 * a + d) ds acc.
Proof.
  induction 1 as [| d ds Hd _ IH]; intros acc Hacc; cbn [fold_left];
    [exact Hacc |].
  apply IH. unfold Text.is_digit in Hd. lia.
Qed.

Lemma number_value_int (ds : list Z) :
  Text.int_field ds -> 0 <= Text.number_value ds < 2 ^ 31.
Proof.
  intros [[_ Hds] Hlt]. split; [| exact Hlt].
  apply (fold_digits_nonneg ds Hds 0). lia.
Qed.

(** [%d] on a field that fits an [int], followed by something that is not
    a digit. *)
Lemma scan_int_text (ds : list Z) (rest : list ascii) :
  Text.int_field ds ->
  Libc.starts_with_digit rest = false ->
  Libc.scan_int (Text.number_text ds ++ rest) =
  Some (Text.number_value ds, rest).
Proof.
  intros Hf Hrest. pose proof (number_value_int ds Hf) as Hv.
  destruct Hf as [[Hne Hds] _].
  destruct ds as [| d ds]; [congruence |].
  pose proof (Forall_inv Hds) as Hd.
  unfold Libc.scan_int. cbn [Text.number_text map app Libc.skip_space].
  rewrite (isspace_digit_char d Hd), (minus_digit_char d Hd),
    (plus_digit_char d Hd), (isdigit_digit_char d Hd).
  change (Text.digit_char d :: map Text.digit_char ds ++ rest)
    with (Text.number_text (d :: ds) ++ rest).
  rewrite (scan_digits_text (d :: ds) Hds 0 rest Hrest).
  fold (Text.number_value (d :: ds)).
  rewrite to_int_small by lia. reflexivity.
Qed.

Ltac scan_field :=
  rewrite scan_int_text; [| assumption | reflexivity].

Lemma skip_space_before_field (ds : list Z) (r : list ascii) :
  Text.field ds ->
  Libc.skip_space (" "%char :: Text.number_text ds ++ r) =
  Text.number_text ds ++ r.
Proof.
  intros [Hne Hds]. destruct ds as [| x ds]; [congruence |].
  cbn [Text.number_text map app Libc.skip_space].
  change (Libc.isspace " ") with true. cbv iota.
  rewrite (isspace_digit_char x (Forall_inv Hds)). reflexivity.
Qed.

Lemma sscanf_interval_text (hh mm : list Z) :
  Text.int_field hh -> Text.int_field mm ->
  Libc.sscanf (Text.interval_text hh mm) "%d:%d" =
  [Text.number_value hh; Text.number_value mm].
Proof.
  intros Hh Hm. unfold Libc.sscanf, Text.interval_text.
  rewrite list_ascii_of_string_of_list_ascii.
  change (Libc.parse_format (list_ascii_of_string "%d:%d"))
    with [Libc.Dint; Libc.Dlit ":"; Libc.Dint].
  cbn [Libc.scan]. scan_field.
  change (":" =? ":")%char with true. cbv iota.
  rewrite <- (app_nil_r (Text.number_text mm)). scan_field.
  reflexivity.
Qed.

Lemma sscanf_date_text (y mo d hh mm : list Z) :
  Text.int_field y -> Text.int_field mo -> Text.int_field d ->
  Text.int_field hh -> Text.int_field mm ->
  Libc.sscanf (Text.date_text y mo d hh mm) "%d-%d-%d %d:%d" =
  [Text.number_value y; Text.number_value mo; Text.number_value d;
   Text.number_value hh; Text.number_value mm].
Proof.
  intros Hy Hmo Hd Hh Hm. unfold Libc.sscanf, Text.date_text.
  rewrite list_ascii_of_string_of_list_ascii.
  change (Libc.parse_format (list_ascii_of_string "%d-%d-%d %d:%d"))
    with [Libc.Dint; Libc.Dlit "-"; Libc.Dint; Libc.Dlit "-"; Libc.Dint;
          Libc.Dspace; Libc.Dint; Libc.Dlit ":"; Libc.Dint].
  cbn [Libc.scan]. scan_field.
  change ("-" =? "-")%char with true. cbv iota. scan_field.
  change ("-" =? "-")%char with true. cbv iota. scan_field.
  rewrite (skip_space_before_field hh _ (proj1 Hh)). scan_field.
  change (":" =? ":")%char with true. cbv iota.
  rewrite <- (app_nil_r (Text.number_text mm)). scan_field.
  reflexivity.
Qed.

(** The fields of a well-formed date text after the two subtractions. *)
Lemma date_fields (td : Libc.tm) (y mo d hh mm : list Z) :
  Text.int_field y -> Text.int_field mo -> Text.int_field d ->
  Text.int_field hh -> Text.int_field mm ->
  adjust_date (scan_date td (Text.date_text y mo d hh mm)) =
  Libc.mk_tm (Libc.tm_sec td) (Text.number_value mm) (Text.number_value hh)
    (Text.number_value d) (Text.number_value mo - 1)
    (Text.number_value y - 1900) (-1).
Proof.
  intros Hy Hmo Hd Hh Hm. unfold scan_date.
  rewrite (sscanf_date_text y mo d hh mm Hy Hmo Hd Hh Hm).
  pose proof (number_value_int y Hy). pose proof (number_value_int mo Hmo).
  unfold adjust_date, int_sub.
  cbn [assign Libc.tm_sec Libc.tm_min Libc.tm_hour Libc.tm_mday Libc.tm_mon
       Libc.tm_year Libc.tm_isdst].
  rewrite !to_int_small by lia. reflexivity.
Qed.

Ltac int_field_closed :=
  split; [split; [discriminate
                 | repeat constructor; unfold Text.is_digit; lia]
         | vm_compute; reflexivity].

Section WellFormedTexts.

Variables (tz : Libc.TimeZone) (tskHH0 tskMM0 : Z) (p : TaskParams).

(** An interval text made of two fields of digits that fit an [int], with
    a colon in between, is converted in full, whatever the locals held and
    whatever the date texts are: the interval stored is
    [60 * (60 * HH + MM)] as the [int] arithmetic of the source gives it,
    its low 32 bits, which is [60 * (60 * HH + MM)] itself when that is
    below 2^31. *)
Theorem interval_text_is_converted (hh mm : list Z)
    (startDateTime stopDateTime : string) :
  Text.int_field hh -> Text.int_field mm ->
  tInterval
    (setCycleStartStop tz tskHH0 tskMM0 p startDateTime stopDateTime
       (Text.interval_text hh mm)) =
  to_int (60 * (60 * Text.number_value hh + Text.number_value mm)) /\
  (60 * (60 * Text.number_value hh + Text.number_value mm) < 2 ^ 31 ->
   tInterval
     (setCycleStartStop tz tskHH0 tskMM0 p startDateTime stopDateTime
        (Text.interval_text hh mm)) =
   60 * (60 * Text.number_value hh + Text.number_value mm)).
Proof.
  intros Hh Hm.
  assert (E : tInterval
                (setCycleStartStop tz tskHH0 tskMM0 p startDateTime
                   stopDateTime (Text.interval_text hh mm)) =
              to_int (60 * (60 * Text.number_value hh
                            + Text.number_value mm))).
  { rewrite setCycleStartStop_interval. unfold scan_interval.
    rewrite (sscanf_interval_text hh mm Hh Hm). cbn [assign nth].
    apply int_interval. }
  split; [exact E |].
  intros Hfit. rewrite E.
  pose proof (number_value_int hh Hh). pose proof (number_value_int mm Hm).
  apply to_int_small. lia.
Qed.

(** Date texts made of five fields of digits that fit an [int], in the
    layout [YYYY-MM-DD HH:MM], are converted in full.  The start stored is
    the [mktime] of year - 1900, month - 1, day, hour and minute, with
    zero seconds and the daylight-saving flag left to the zone.  The stop
    is converted in the same [struct tm], after [mktime] has normalised it
    for the start: its seconds are the ones [mktime] left there. *)
Theorem date_texts_are_converted (y mo d hh mm y' mo' d' hh' mm' : list Z)
    (taskInterval : string) :
  Text.int_field y -> Text.int_field mo -> Text.int_field d ->
  Text.int_field hh -> Text.int_field mm ->
  Text.int_field y' -> Text.int_field mo' -> Text.int_field d' ->
  Text.int_field hh' -> Text.int_field mm' ->
  tStart
    (setCycleStartStop tz tskHH0 tskMM0 p (Text.date_text y mo d hh mm)
       (Text.date_text y' mo' d' hh' mm') taskInterval) =
  snd (Libc.mktime tz
         (Libc.mk_tm 0 (Text.number_value mm) (Text.number_value hh)
            (Text.number_value d) (Text.number_value mo - 1)
            (Text.number_value y - 1900) (-1))) /\
  tStop
    (setCycleStartStop tz tskHH0 tskMM0 p (Text.date_text y mo d hh mm)
       (Text.date_text y' mo' d' hh' mm') taskInterval) =
  snd (Libc.mktime tz
         (Libc.mk_tm
            (Libc.tm_sec
               (fst (Libc.mktime tz
                       (Libc.mk_tm 0 (Text.number_value mm)
                          (Text.number_value hh) (Text.number_value d)
                          (Text.number_value mo - 1)
                          (Text.number_value y - 1900) (-1)))))
            (Text.number_value mm') (Text.number_value hh')
            (Text.number_value d') (Text.number_value mo' - 1)
            (Text.number_value y' - 1900) (-1))).
Proof.
  intros Hy Hmo Hd Hh Hm Hy' Hmo' Hd' Hh' Hm'.
  unfold setCycleStartStop, date_to_time.
  rewrite (date_fields Libc.tm_zero y mo d hh mm Hy Hmo Hd Hh Hm).
  cbn [Libc.tm_sec Libc.tm_zero].
  destruct (Libc.mktime tz (Libc.mk_tm 0 _ _ _ _ _ _)) as [td1 t1].
  cbn [fst snd].
  rewrite (date_fields td1 y' mo' d' hh' mm' Hy' Hmo' Hd' Hh' Hm').
  destruct (Libc.mktime tz (Libc.mk_tm (Libc.tm_sec td1) _ _ _ _ _ _))
    as [td2 t2].
  split; reflexivity.
Qed.

(** The translator overrides what the setters stored before it: start,
    stop, interval, cycle period and cycle count of the record it is given
    have no part in its result.  It leaves the multiplier, the handle and
    the callback alone. *)
Theorem translator_overrides_setters (a b c d n : Z)
    (startDateTime stopDateTime taskInterval : string) :
  setCycleStartStop tz tskHH0 tskMM0
    (setNbrOfCycles
       (setCyclePeriod
          (setTaskInterval (setCycleStop (setCycleStart p a) b) c) d) n)
    startDateTime stopDateTime taskInterval =
  setCycleStartStop tz tskHH0 tskMM0 p startDateTime stopDateTime
    taskInterval /\
  intervalMultiplier
    (setCycleStartStop tz tskHH0 tskMM0 p startDateTime stopDateTime
       taskInterval) = intervalMultiplier p /\
  tskHandle
    (setCycleStartStop tz tskHH0 tskMM0 p startDateTime stopDateTime
       taskInterval) = tskHandle p /\
  callback
    (setCycleStartStop tz tskHH0 tskMM0 p startDateTime stopDateTime
       taskInterval) = callback p.
Proof.
  unfold_translator. repeat split.
Qed.

(** For timestamps with [start <= stop] the cycle count stored covers the
    span in days: the span is at least [count - 1] whole days and less
    than [count] days. *)
Theorem cycle_count_covers_span
    (startDateTime stopDateTime taskInterval : string) :
  tStart
    (setCycleStartStop tz tskHH0 tskMM0 p startDateTime stopDateTime
       taskInterval)
  <= tStop
       (setCycleStartStop tz tskHH0 tskMM0 p startDateTime stopDateTime
          taskInterval) ->
  tStop
    (setCycleStartStop tz tskHH0 tskMM0 p startDateTime stopDateTime
       taskInterval)
  - tStart
      (setCycleStartStop tz tskHH0 tskMM0 p startDateTime stopDateTime
         taskInterval) < 86400 * (2 ^ 32 - 1) ->
  (nbrOfCycles
     (setCycleStartStop tz tskHH0 tskMM0 p startDateTime stopDateTime
        taskInterval) - 1) * 86400
  <= tStop
       (setCycleStartStop tz tskHH0 tskMM0 p startDateTime stopDateTime
          taskInterval)
     - tStart
         (setCycleStartStop tz tskHH0 tskMM0 p startDateTime stopDateTime
            taskInterval)
  < nbrOfCycles
      (setCycleStartStop tz tskHH0 tskMM0 p startDateTime stopDateTime
         taskInterval) * 86400.
Proof.
  destruct (setCycleStartStop_cycles tz tskHH0 tskMM0 p startDateTime
              stopDateTime taskInterval) as [_ HN].
  cbv zeta in HN.
  set (p' := setCycleStartStop tz tskHH0 tskMM0 p startDateTime
               stopDateTime taskInterval) in *.
  intros Hle Hfit.
  pose proof (Z.div_mod (tStop p' - tStart p') 86400 ltac:(lia)) as E.
  pose proof (Z.mod_pos_bound (tStop p' - tStart p') 86400 ltac:(lia)) as B.
  rewrite Z.quot_div_nonneg in HN by lia.
  rewrite to_uint32_small in HN by lia.
  lia.
Qed.

End WellFormedTexts.

Lemma interval_text_is_converted_witness :
  tInterval
    (setCycleStartStop App.TIME_ZONE 7 7 _tskParams "2023-06-13 22:40"
       "2023-06-14 06:15" (Text.interval_text [0; 1] [3; 0])) =
  to_int (60 * (60 * Text.number_value [0; 1] + Text.number_value [3; 0])) /\
  (60 * (60 * Text.number_value [0; 1] + Text.number_value [3; 0]) < 2 ^ 31 ->
   tInterval
     (setCycleStartStop App.TIME_ZONE 7 7 _tskParams "2023-06-13 22:40"
        "2023-06-14 06:15" (Text.interval_text [0; 1] [3; 0])) =
   60 * (60 * Text.number_value [0; 1] + Text.number_value [3; 0])).
Proof.
  apply (interval_text_is_converted App.TIME_ZONE 7 7 _tskParams
           [0; 1] [3; 0]); int_field_closed.
Defined.

Lemma date_texts_are_converted_witness :
  tStart
    (setCycleStartStop App.TIME_ZONE 0 0 _tskParams
       (Text.date_text [2; 0; 2; 3] [0; 6] [1; 3] [2; 2] [4; 0])
       (Text.date_text [2; 0; 2; 3] [0; 6] [1; 4] [0; 6] [1; 5]) "00:05")
  = 1686688800 /\
  tStop
    (setCycleStartStop App.TIME_ZONE 0 0 _tskParams
       (Text.date_text [2; 0; 2; 3] [0; 6] [1; 3] [2; 2] [4; 0])
       (Text.date_text [2; 0; 2; 3] [0; 6] [1; 4] [0; 6] [1; 5]) "00:05")
  = 1686716100.
Proof.
  apply (date_texts_are_converted App.TIME_ZONE 0 0 _tskParams
           [2; 0; 2; 3] [0; 6] [1; 3] [2; 2] [4; 0]
           [2; 0; 2; 3] [0; 6] [1; 4] [0; 6] [1; 5] "00:05");
    int_field_closed.
Defined.

Lemma cycle_count_covers_span_witness :
  (nbrOfCycles (App.task4 0 0) - 1) * 86400
  <= tStop (App.task4 0 0) - tStart (App.task4 0 0)
  < nbrOfCycles (App.task4 0 0) * 86400.
Proof.
  apply (cycle_count_covers_span App.TIME_ZONE 0 0 _tskParams
           "2023-06-13 22:40" "2023-06-14 06:15" "00:05");
    vm_compute; congruence.
Defined.

(** In a zone whose offsets are whole minutes, [mktime] leaves zero
    seconds in a [struct tm] that came with zero seconds. *)
Lemma mktime_keeps_zero_seconds (tz : Libc.TimeZone) (td : Libc.tm) :
  Libc.std_offset tz mod 60 = 0 ->
  Libc.dst_offset tz mod 60 = 0 ->
  Libc.tm_sec td = 0 ->
  Libc.tm_sec (fst (Libc.mktime tz td)) = 0.
Proof.
  intros Hstd Hdst Hsec.
  unfold Libc.mktime, Libc.localtime. cbv zeta. cbn [fst].
  set (l := Libc.wall_seconds td).
  assert (Hl : l mod 60 = 0).
  { unfold l, Libc.wall_seconds. rewrite Hsec, Z.add_0_r.
    match goal with
    | |- (?a * 86400 + ?h * 3600 + ?m * 60) mod 60 = 0 =>
        replace (a * 86400 + h * 3600 + m * 60)
          with ((a * 1440 + h * 60 + m) * 60) by lia
    end.
    apply Z.mod_mul. lia. }
  set (c1 := if Libc.tm_isdst td <? 0 then Libc.dst_at_local tz l
             else 0 <? Libc.tm_isdst td).
  set (o1 := if c1 then Libc.dst_offset tz else Libc.std_offset tz).
  set (c2 := Libc.dst_at_utc tz (l - o1)).
  set (o2 := if c2 then Libc.dst_offset tz else Libc.std_offset tz).
  assert (H1 : o1 mod 60 = 0) by (unfold o1; destruct c1; assumption).
  assert (H2 : o2 mod 60 = 0) by (unfold o2; destruct c2; assumption).
  destruct (Libc.civil_from_days ((l - o1 + o2) / 86400)) as [[yy mm] dd].
  cbn [Libc.tm_sec].
  rewrite Z.mod_mod_divide by (exists 1440; reflexivity).
  pose proof (Z.div_mod l 60 ltac:(lia)) as El. rewrite Hl in El.
  pose proof (Z.div_mod o1 60 ltac:(lia)) as E1. rewrite H1 in E1.
  pose proof (Z.div_mod o2 60 ltac:(lia)) as E2. rewrite H2 in E2.
  replace (l - o1 + o2) with ((l / 60 - o1 / 60 + o2 / 60) * 60) by lia.
  apply Z.mod_mul. lia.
Qed.

(** In a zone whose offsets are whole minutes, as the one the sketch sets,
    a stop text of five fields that fit an [int] is converted like the
    start text, whatever the start text was: the stop stored is the
    [mktime] of its own fields with zero seconds. *)
Theorem stop_text_is_converted (tz : Libc.TimeZone) (tskHH0 tskMM0 : Z)
    (p : TaskParams) (startDateTime taskInterval : string)
    (y mo d hh mm : list Z) :
  Libc.std_offset tz mod 60 = 0 ->
  Libc.dst_offset tz mod 60 = 0 ->
  Text.int_field y -> Text.int_field mo -> Text.int_field d ->
  Text.int_field hh -> Text.int_field mm ->
  tStop
    (setCycleStartStop tz tskHH0 tskMM0 p startDateTime
       (Text.date_text y mo d hh mm) taskInterval) =
  snd (Libc.mktime tz
         (Libc.mk_tm 0 (Text.number_value mm) (Text.number_value hh)
            (Text.number_value d) (Text.number_value mo - 1)
            (Text.number_value y - 1900) (-1))).
Proof.
  intros Hstd Hdst Hy Hmo Hd Hh Hm.
  assert (Hsec : Libc.tm_sec
                   (fst (date_to_time tz Libc.tm_zero startDateTime)) = 0).
  { unfold date_to_time. apply mktime_keeps_zero_seconds; try assumption.
    unfold adjust_date, scan_date. cbn [Libc.tm_sec].
    destruct (assign _ _) as [| ? [| ? [| ? [| ? [| ? [| ? ?]]]]]];
      reflexivity. }
  unfold setCycleStartStop.
  destruct (date_to_time tz Libc.tm_zero startDateTime) as [td1 t1].
  cbn [fst] in Hsec.
  unfold date_to_time.
  rewrite (date_fields td1 y mo d hh mm Hy Hmo Hd Hh Hm), Hsec.
  destruct (Libc.mktime tz _) as [td2 t2]. reflexivity.
Qed.

Lemma stop_text_is_converted_witness :
  tStop
    (setCycleStartStop App.TIME_ZONE 0 0 _tskParams "tomorrow"
       (Text.date_text [2; 0; 2; 3] [0; 6] [1; 4] [0; 6] [1; 5]) "00:05")
  = 1686716100.
Proof.
  apply (stop_text_is_converted App.TIME_ZONE 0 0 _tskParams "tomorrow"
           "00:05" [2; 0; 2; 3] [0; 6] [1; 4] [0; 6] [1; 5]);
    try reflexivity; int_field_closed.
Defined.

(** * The callbacks of the sketch *)

(** [blinkLed] takes the 10 ms that the timer's model of it takes, leaves
    the red LED off (its pin high) and does not touch the flash LED. *)
Theorem blinkLed_on_the_board (b : Sketch.Board) :
  Sketch.clock (Sketch.blinkLed b) = Sketch.clock b + cb_ms App.blinkLed /\
  Sketch.level (Sketch.blinkLed b) Sketch.LED_BUILTIN = Sketch.HIGH /\
  Sketch.level (Sketch.blinkLed b) Sketch.FLASH_LED =
    Sketch.level b Sketch.FLASH_LED.
Proof. repeat split. Qed.

(** [flashSOS] flashes nine times and takes 4800 ms, the time that the
    timer's model of it takes: 3 * 500 + 3 * 600 + 3 * 500.  It leaves the
    flash LED off and does not touch the red LED. *)
Theorem flashSOS_on_the_board (b : Sketch.Board) :
  Sketch.clock (Sketch.flashSOS b) = Sketch.clock b + cb_ms App.flashSOS /\
  cb_ms App.flashSOS = 4800 /\
  Sketch.level (Sketch.flashSOS b) Sketch.FLASH_LED = Sketch.LOW /\
  Sketch.level (Sketch.flashSOS b) Sketch.LED_BUILTIN =
    Sketch.level b Sketch.LED_BUILTIN /\
  exists l,
    Sketch.ops (Sketch.flashSOS b) = l ++ Sketch.ops b /\
    Sketch.writes Sketch.FLASH_LED Sketch.HIGH l = 9%nat /\
    Sketch.writes Sketch.FLASH_LED Sketch.LOW l = 9%nat /\
    Sketch.delayed l = 4800.
Proof.
  split; [| split; [| split; [| split]]]; try reflexivity.
  - unfold Sketch.flashSOS, Sketch.flash. cbn. lia.
  - exists (firstn 36 (Sketch.ops (Sketch.flashSOS b))).
    repeat split.
Qed.


(** * What the translator lets pass *)

Lemma skip_space_blanks (k : nat) (s : list ascii) :
  Libc.skip_space (repeat " "%char k ++ s) = Libc.skip_space s.
Proof.
  induction k as [| k IH]; [reflexivity |].
  cbn [repeat app Libc.skip_space].
  change (Libc.isspace " ") with true. cbv iota. exact IH.
Qed.

Lemma scan_int_blanks (k : nat) (s : list ascii) :
  Libc.scan_int (repeat " "%char k ++ s) = Libc.scan_int s.
Proof. unfold Libc.scan_int. rewrite skip_space_blanks. reflexivity. Qed.

Lemma starts_with_digit_text (ds : list Z) (rest : list ascii) :
  Text.field ds ->
  Libc.starts_with_digit (Text.number_text ds ++ rest) = true.
Proof.
  intros [Hne Hds]. destruct ds as [| d ds]; [congruence |].
  cbn [Text.number_text map app Libc.starts_with_digit].
  apply isdigit_digit_char, (Forall_inv Hds).
Qed.

Lemma scan_int_negative (ds : list Z) (rest : list ascii) :
  Text.int_field ds ->
  Libc.starts_with_digit rest = false ->
  Libc.scan_int ("-"%char :: Text.number_text ds ++ rest) =
  Some (- Text.number_value ds, rest).
Proof.
  intros Hf Hrest. pose proof (number_value_int ds Hf) as Hv.
  unfold Libc.scan_int. cbn [Libc.skip_space].
  change (Libc.isspace "-") with false. cbv iota.
  change ("-" =? "-")%char with true. cbv iota.
  rewrite (starts_with_digit_text ds rest (proj1 Hf)).
  rewrite (scan_digits_text ds (proj2 (proj1 Hf)) 0 rest Hrest).
  fold (Text.number_value ds).
  rewrite to_int_small by lia. reflexivity.
Qed.

Section Tolerance.

Variables (tz : Libc.TimeZone) (tskHH0 tskMM0 : Z) (p : TaskParams).
Variables (startDateTime stopDateTime : string).

(** Blanks before the hours and before the minutes, and any text after
    the minutes that does not begin with a digit, are passed over: for
    fields that fit an [int] the interval stored is the one of the two
    fields, [60 * (60 * HH + MM)] in the [int] arithmetic of the source,
    which is [60 * (60 * HH + MM)] itself when that is below 2^31. *)
Theorem padded_interval_text_is_converted (k j : nat) (hh mm : list Z)
    (trailer : list ascii) :
  Text.int_field hh -> Text.int_field mm ->
  Libc.starts_with_digit trailer = false ->
  tInterval
    (setCycleStartStop tz tskHH0 tskMM0 p startDateTime stopDateTime
       (Text.padded_interval_text k j hh mm trailer)) =
  to_int (60 * (60 * Text.number_value hh + Text.number_value mm)) /\
  (60 * (60 * Text.number_value hh + Text.number_value mm) < 2 ^ 31 ->
   tInterval
     (setCycleStartStop tz tskHH0 tskMM0 p startDateTime stopDateTime
        (Text.padded_interval_text k j hh mm trailer)) =
   60 * (60 * Text.number_value hh + Text.number_value mm)).
Proof.
  intros Hh Hm Ht.
  assert (S : Libc.sscanf (Text.padded_interval_text k j hh mm trailer)
                "%d:%d" = [Text.number_value hh; Text.number_value mm]).
  { unfold Libc.sscanf, Text.padded_interval_text.
    rewrite list_ascii_of_string_of_list_ascii.
    change (Libc.parse_format (list_ascii_of_string "%d:%d"))
      with [Libc.Dint; Libc.Dlit ":"; Libc.Dint].
    cbn [Libc.scan]. rewrite scan_int_blanks. scan_field.
    change (":" =? ":")%char with true. cbv iota.
    rewrite scan_int_blanks.
    rewrite (scan_int_text mm trailer Hm Ht). reflexivity. }
  assert (E : tInterval
                (setCycleStartStop tz tskHH0 tskMM0 p startDateTime
                   stopDateTime
                   (Text.padded_interval_text k j hh mm trailer)) =
              to_int (60 * (60 * Text.number_value hh
                            + Text.number_value mm))).
  { rewrite setCycleStartStop_interval. unfold scan_interval.
    rewrite S. cbn [assign nth]. apply int_interval. }
  split; [exact E |].
  intros Hfit. rewrite E.
  pose proof (number_value_int hh Hh). pose proof (number_value_int mm Hm).
  apply to_int_small. lia.
Qed.

(** A minus sign before the hours is read as part of the number: for
    fields that fit an [int] the interval stored is
    [60 * (60 * (- HH) + MM)] in the [int] arithmetic of the source, which
    is that number itself, negative as soon as [MM < 60 * HH], when it
    fits an [int]. *)
Theorem negative_interval_is_stored (hh mm : list Z) :
  Text.int_field hh -> Text.int_field mm ->
  tInterval
    (setCycleStartStop tz tskHH0 tskMM0 p startDateTime stopDateTime
       (Text.negative_interval_text hh mm)) =
  to_int (60 * (60 * (- Text.number_value hh) + Text.number_value mm)) /\
  (- 2 ^ 31 <= 60 * (60 * (- Text.number_value hh) + Text.number_value mm)
     < 2 ^ 31 ->
   tInterval
     (setCycleStartStop tz tskHH0 tskMM0 p startDateTime stopDateTime
        (Text.negative_interval_text hh mm)) =
   60 * (60 * (- Text.number_value hh) + Text.number_value mm)).
Proof.
  intros Hh Hm.
  assert (S : Libc.sscanf (Text.negative_interval_text hh mm) "%d:%d" =
              [- Text.number_value hh; Text.number_value mm]).
  { unfold Libc.sscanf, Text.negative_interval_text.
    rewrite list_ascii_of_string_of_list_ascii.
    change (Libc.parse_format (list_ascii_of_string "%d:%d"))
      with [Libc.Dint; Libc.Dlit ":"; Libc.Dint].
    cbn [Libc.scan].
    rewrite scan_int_negative; [| assumption | reflexivity].
    change (":" =? ":")%char with true. cbv iota.
    rewrite <- (app_nil_r (Text.number_text mm)). scan_field.
    reflexivity. }
  assert (E : tInterval
                (setCycleStartStop tz tskHH0 tskMM0 p startDateTime
                   stopDateTime (Text.negative_interval_text hh mm)) =
              to_int (60 * (60 * (- Text.number_value hh)
                            + Text.number_value mm))).
  { rewrite setCycleStartStop_interval. unfold scan_interval.
    rewrite S. cbn [assign nth]. apply int_interval. }
  split; [exact E |].
  intros Hfit. rewrite E.
  pose proof (number_value_int hh Hh). pose proof (number_value_int mm Hm).
  apply to_int_small. lia.
Qed.

End Tolerance.

Lemma padded_interval_text_is_converted_witness :
  tInterval
    (setCycleStartStop App.TIME_ZONE 7 7 _tskParams "2023-06-13 22:40"
       "2023-06-14 06:15"
       (Text.padded_interval_text 2 1 [0] [5]
          (list_ascii_of_string " minutes"))) =
  to_int (60 * (60 * Text.number_value [0] + Text.number_value [5])) /\
  (60 * (60 * Text.number_value [0] + Text.number_value [5]) < 2 ^ 31 ->
   tInterval
     (setCycleStartStop App.TIME_ZONE 7 7 _tskParams "2023-06-13 22:40"
        "2023-06-14 06:15"
        (Text.padded_interval_text 2 1 [0] [5]
           (list_ascii_of_string " minutes"))) =
   60 * (60 * Text.number_value [0] + Text.number_value [5])).
Proof.
  apply (padded_interval_text_is_converted App.TIME_ZONE 7 7 _tskParams
           "2023-06-13 22:40" "2023-06-14 06:15" 2 1 [0] [5]);
    try reflexivity; int_field_closed.
Defined.

(** The interval text ["600000:00"]: the fields fit an [int], the interval
    does not, and what is stored is negative. *)
Lemma interval_beyond_int_wraps :
  tInterval
    (setCycleStartStop App.TIME_ZONE 7 7 _tskParams "2023-06-13 22:40"
       "2023-06-14 06:15" "600000:00") = -2134967296.
Proof. vm_compute. reflexivity. Qed.

Lemma negative_interval_is_stored_witness :
  tInterval
    (setCycleStartStop App.TIME_ZONE 7 7 _tskParams "2023-06-13 22:40"
       "2023-06-14 06:15" (Text.negative_interval_text [0; 1] [0; 5])) =
  to_int (60 * (60 * (- Text.number_value [0; 1])
                + Text.number_value [0; 5])) /\
  (- 2 ^ 31 <= 60 * (60 * (- Text.number_value [0; 1])
                     + Text.number_value [0; 5]) < 2 ^ 31 ->
   tInterval
     (setCycleStartStop App.TIME_ZONE 7 7 _tskParams "2023-06-13 22:40"
        "2023-06-14 06:15" (Text.negative_interval_text [0; 1] [0; 5])) =
   60 * (60 * (- Text.number_value [0; 1]) + Text.number_value [0; 5])).
Proof.
  apply (negative_interval_is_stored App.TIME_ZONE 7 7 _tskParams
           "2023-06-13 22:40" "2023-06-14 06:15" [0; 1] [0; 5]);
    int_field_closed.
Defined.

(** * The window over all the cycles *)

(** A cycle never starts the next one early: the next start is at least
    one cycle period after this one. *)
Lemma cycle_start_not_early (fuel : nat) (p p' : TaskParams) (w w' : World) :
  cycle fuel p w = Ok (p', w') ->
  tStart p + tCyclePeriod p <= tStart p'.
Proof.
  unfold cycle. intros H.
  destruct (wait_phase fuel p w) as [w1 | |] eqn:E1; try discriminate.
  cbn [bind] in H. unfold time in H.
  destruct (active_phase fuel _ _) as [w3 | |]; try discriminate.
  cbn [bind] in H. injection H as <- _.
  destruct (while_time_before_trace _ _ _ wait_body_trace _ _ _ E1)
    as (_ & _ & _ & Hstart).
  cbn [tStart tCyclePeriod with_tStart with_tStop]. lia.
Qed.

Lemma for_cycles_start_not_early :
  forall fuel n p w p1 w1,
    for_cycles fuel n p w = Ok (p1, w1) ->
    0 <= n <= nbrOfCycles p -> nbrOfCycles p < 2 ^ 32 ->
    tStart p + (nbrOfCycles p - n) * tCyclePeriod p <= tStart p1.
Proof.
  induction fuel as [| fuel IH]; intros n p w p1 w1 H Hn Hmax.
  - simpl in H. destruct (n <? nbrOfCycles p) eqn:E; [discriminate |].
    apply Z.ltb_ge in E. injection H as <- _.
    replace (nbrOfCycles p - n) with 0 by lia. lia.
  - simpl in H. destruct (n <? nbrOfCycles p) eqn:E.
    + apply Z.ltb_lt in E.
      destruct (cycle fuel p w) as [[p' w'] | |] eqn:Ec; try discriminate.
      cbn [bind fst snd] in H.
      destruct (cycle_keeps _ _ _ _ _ Ec) as (_ & Hc & Hk & _).
      pose proof (cycle_start_not_early _ _ _ _ _ Ec) as Hs.
      rewrite to_uint32_small in H by lia.
      apply IH in H; [| lia | lia].
      rewrite Hc, Hk in H. lia.
    + apply Z.ltb_ge in E. injection H as <- _.
      replace (nbrOfCycles p - n) with 0 by lia. lia.
Qed.

(** Over a whole run the window never grows and never gets ahead of the
    schedule: when the task function returns, the start has moved by at
    least [nbrOfCycles] cycle periods, the stop by exactly as many, so the
    window left is at most as wide as the one configured.  This holds for
    every callback and every interval. *)
Theorem window_never_grows (fuel : nat) (p p' : TaskParams) (w w' : World) :
  0 <= nbrOfCycles p < 2 ^ 32 ->
  _taskFunction fuel p w = Ok (p', w') ->
  tStart p + nbrOfCycles p * tCyclePeriod p <= tStart p' /\
  tStop p' = tStop p + nbrOfCycles p * tCyclePeriod p /\
  tStop p' - tStart p' <= tStop p - tStart p.
Proof.
  intros HK H. unfold _taskFunction in H.
  destruct (for_cycles fuel 0 p w) as [[p1 w1] | |] eqn:E; try discriminate.
  cbn [bind fst snd] in H. injection H as <- _.
  pose proof (for_cycles_start_not_early _ _ _ _ _ _ E ltac:(lia) ltac:(lia))
    as Hs.
  destruct (for_cycles_keeps _ _ _ _ _ _ E ltac:(lia) ltac:(lia)) as [Ht _].
  cbn [tStart tStop with_tskHandle].
  replace (nbrOfCycles p - 0) with (nbrOfCycles p) in * by lia.
  lia.
Qed.

Lemma window_never_grows_witness :
  exists p' w',
    _taskFunction 5 Examples.two_short_cycles (Examples.world_at 1300)
      = Ok (p', w') /\
    0 + 2 * 4 <= tStart p' /\
    tStop p' = 4 + 2 * 4 /\
    tStop p' - tStart p' <= 4 - 0.
Proof.
  destruct (_taskFunction 5 Examples.two_short_cycles
              (Examples.world_at 1300)) as [[p' w'] | |] eqn:E;
    [| vm_compute in E; discriminate | vm_compute in E; discriminate].
  exists p', w'. split; [reflexivity |].
  apply (window_never_grows 5 Examples.two_short_cycles p'
           (Examples.world_at 1300) w').
  - vm_compute. split; congruence.
  - exact E.
Defined.
